(** * Agentic Shopper: extraction pipeline, aggregator and fallback ranking

    A shallow embedding of the browser extension's JavaScript:

    - [schema.js]                 : weight validation and normalisation;
    - [newegg_search_parser.js]   : the Newegg result-card scraper;
    - [generic_search_page.js]    : the generic result-card scraper;
    - [generic_product_page.js]   : the product-page strategy cascade;
    - the service worker          : candidate gathering, ranking with its
                                    price-sort fallback, the find-deals handler.

    Conventions of the embedding.

    - A JavaScript function that may throw returns a [result]; [try]/[catch]
      is [try_catch].  A function whose body cannot throw is a plain function.
    - JavaScript numbers are [num]: a rational, or one of NaN, +Infinity,
      -Infinity.  Arithmetic on finite values is exact: rounding to binary64
      and overflow are outside the model, and the two zeros are one.
    - Strings are sequences of 8-bit code units read as Latin-1; the character
      classes [\w], [\s], [\d] and [toLowerCase] are the JavaScript ones on
      that range.
    - [null] and [undefined] of a string-valued or object-valued slot are
      [None]; dynamically typed data (JSON-LD, the page Context) is a [value].
    - The DOM is read through query functions ([querySelector] and the like):
      a page is what its queries answer. *)

From Stdlib Require Import String Ascii List ZArith QArith Qabs Qround Lia Lqa Bool.
From Stdlib Require Import Sorting.Sorted Sorting.Permutation.
From stdpp Require Import gmap strings pretty.
Import ListNotations.

Open Scope string_scope.
Open Scope list_scope.

(** ** Exceptions *)

Inductive exn : Type :=
| TypeError (msg : string)
| SyntaxError (msg : string)
| Error (msg : string).

Definition exn_message (e : exn) : string :=
  match e with
  | TypeError msg | SyntaxError msg | Error msg => msg
  end.

Inductive result (A : Type) : Type :=
| Ok (a : A)
| Throw (e : exn).

Arguments Ok {A} a.
Arguments Throw {A} e.

#[global] Instance result_ret : MRet result := fun A a => Ok a.

#[global] Instance result_bind : MBind result := fun A B f c =>
  match c with
  | Ok a => f a
  | Throw e => Throw e
  end.

#[global] Instance result_fmap : FMap result := fun A B f c =>
  match c with
  | Ok a => Ok (f a)
  | Throw e => Throw e
  end.

(** [try { body } catch (error) { handler }] *)
Definition try_catch {A : Type} (body : result A) (handler : exn -> result A)
  : result A :=
  match body with
  | Ok a => Ok a
  | Throw e => handler e
  end.

Definition throws {A : Type} (c : result A) : bool :=
  match c with
  | Ok _ => false
  | Throw _ => true
  end.

(** ** Numbers *)

Module Num.

Inductive num : Type :=
| NaN
| NegInf
| Fin (q : Q)
| PosInf.

Definition zero : num := Fin 0.

Definition Qltb (a b : Q) : bool := negb (Qle_bool b a).

Definition neg (a : num) : num :=
  match a with
  | NaN => NaN
  | NegInf => PosInf
  | Fin q => Fin (- q)
  | PosInf => NegInf
  end.

Definition add (a b : num) : num :=
  match a, b with
  | NaN, _ | _, NaN => NaN
  | PosInf, NegInf | NegInf, PosInf => NaN
  | PosInf, _ | _, PosInf => PosInf
  | NegInf, _ | _, NegInf => NegInf
  | Fin x, Fin y => Fin (x + y)
  end.

Definition sub (a b : num) : num := add a (neg b).

(** Sign of a number, as a comparison with zero; [None] for NaN. *)
Definition sign (a : num) : option comparison :=
  match a with
  | NaN => None
  | NegInf => Some Lt
  | Fin q => Some (q ?= 0)%Q
  | PosInf => Some Gt
  end.

Definition of_sign (c : comparison) : num :=
  match c with
  | Lt => NegInf
  | Eq => NaN
  | Gt => PosInf
  end.

Definition sign_mul (c d : comparison) : comparison :=
  match c, d with
  | Eq, _ | _, Eq => Eq
  | Lt, Lt | Gt, Gt => Gt
  | _, _ => Lt
  end.

Definition mul (a b : num) : num :=
  match a, b with
  | Fin x, Fin y => Fin (x * y)
  | _, _ =>
      match sign a, sign b with
      | Some c, Some d => of_sign (sign_mul c d)
      | _, _ => NaN
      end
  end.

(** Division; a zero divisor is taken as [+0]. *)
Definition div (a b : num) : num :=
  match a, b with
  | NaN, _ | _, NaN => NaN
  | Fin x, Fin y =>
      if Qeq_bool y 0 then of_sign (x ?= 0)%Q else Fin (x / y)
  | Fin _, _ => Fin 0
  | _, Fin y => if Qltb y 0 then neg a else a
  | _, _ => NaN
  end.

(** [Math.abs] *)
Definition abs (a : num) : num :=
  match a with
  | NaN => NaN
  | Fin q => Fin (Qabs q)
  | _ => PosInf
  end.

(** [a < b] *)
Definition ltb (a b : num) : bool :=
  match a, b with
  | NaN, _ | _, NaN => false
  | _, NegInf => false
  | NegInf, _ => true
  | PosInf, _ => false
  | Fin _, PosInf => true
  | Fin x, Fin y => Qltb x y
  end.


(** [a === b] *)
Definition eqb (a b : num) : bool :=
  match a, b with
  | NegInf, NegInf | PosInf, PosInf => true
  | Fin x, Fin y => Qeq_bool x y
  | _, _ => false
  end.

(** Truthiness of a number: NaN and zero are falsy. *)
Definition truthy (a : num) : bool :=
  match a with
  | NaN => false
  | Fin q => negb (Qeq_bool q 0)
  | _ => true
  end.

(** [a || b] on numbers *)
Definition or_else (a b : num) : num := if truthy a then a else b.

(** [parseFloat(x) || null] *)
Definition or_null (a : num) : option num := if truthy a then Some a else None.

Definition of_N (n : N) : num := Fin (inject_Z (Z.of_N n)).

End Num.

Export Num (num).

(** ** Strings *)

Module Str.

Definition code (c : ascii) : N := N_of_ascii c.

Definition between (lo hi : N) (c : ascii) : bool :=
  ((lo <=? code c) && (code c <=? hi))%N.

(** [\d] *)
Definition is_digit (c : ascii) : bool := between 48 57 c.

Definition is_upper (c : ascii) : bool := between 65 90 c.

Definition is_lower (c : ascii) : bool := between 97 122 c.

(** [\w] : [A-Za-z0-9_] *)
Definition is_word (c : ascii) : bool :=
  is_digit c || is_upper c || is_lower c || (code c =? 95)%N.

(** [\s] : tab, line feed, vertical tab, form feed, carriage return, space
    and the no-break space. *)
Definition is_space (c : ascii) : bool :=
  between 9 13 c || (code c =? 32)%N || (code c =? 160)%N.

(** One character of [toLowerCase]: A-Z, and the Latin-1 capitals
    U+00C0..U+00DE except the multiplication sign. *)
Definition to_lower_char (c : ascii) : ascii :=
  if is_upper c || (between 192 222 c && negb (code c =? 215)%N)
  then ascii_of_N (code c + 32)
  else c.

Fixpoint map_chars (f : ascii -> ascii) (s : string) : string :=
  match s with
  | EmptyString => EmptyString
  | String c s' => String (f c) (map_chars f s')
  end.

Fixpoint filter_chars (p : ascii -> bool) (s : string) : string :=
  match s with
  | EmptyString => EmptyString
  | String c s' =>
      if p c then String c (filter_chars p s') else filter_chars p s'
  end.

Fixpoint forall_chars (p : ascii -> bool) (s : string) : bool :=
  match s with
  | EmptyString => true
  | String c s' => p c && forall_chars p s'
  end.

Definition toLowerCase (s : string) : string := map_chars to_lower_char s.

(** Truthiness of a string: the empty string is falsy. *)
Definition nonempty (s : string) : bool :=
  match s with
  | EmptyString => false
  | String _ _ => true
  end.

(** Truthiness of a slot holding a string, [null] or [undefined]. *)
Definition truthy (o : option string) : bool :=
  match o with
  | Some s => nonempty s
  | None => false
  end.

(** [a || b] on such slots *)
Definition or_else (a b : option string) : option string :=
  if truthy a then a else b.

Fixpoint drop (n : nat) (s : string) : string :=
  match n, s with
  | O, _ => s
  | S _, EmptyString => EmptyString
  | S n', String _ s' => drop n' s'
  end.

(** The longest prefix of characters satisfying [p], and what follows it. *)
Fixpoint span (p : ascii -> bool) (s : string) : string * string :=
  match s with
  | EmptyString => (EmptyString, EmptyString)
  | String c s' =>
      if p c then let '(run, rest) := span p s' in (String c run, rest)
      else (EmptyString, s)
  end.

Fixpoint drop_while (p : ascii -> bool) (s : string) : string :=
  match s with
  | EmptyString => EmptyString
  | String c s' => if p c then drop_while p s' else s
  end.

Definition trimStart (s : string) : string := drop_while is_space s.

Fixpoint trimEnd (s : string) : string :=
  match s with
  | EmptyString => EmptyString
  | String c s' =>
      match trimEnd s' with
      | EmptyString => if is_space c then EmptyString else String c EmptyString
      | t => String c t
      end
  end.

(** [s.trim()] *)
Definition trim (s : string) : string := trimEnd (trimStart s).

(** [hay.includes(needle)] *)
Fixpoint includes (hay needle : string) : bool :=
  String.prefix needle hay ||
  match hay with
  | EmptyString => false
  | String _ hay' => includes hay' needle
  end.

(** [s.replace(pat, rep)] with a string pattern: the first occurrence only. *)
Fixpoint replace_first (pat rep s : string) : string :=
  if String.prefix pat s then rep +:+ drop (String.length pat) s
  else
    match s with
    | EmptyString => EmptyString
    | String c s' => String c (replace_first pat rep s')
    end.

(** [s.split(/\s+/)]: the pieces between maximal runs of white space; a
    leading or trailing run leaves an empty first or last piece. *)
Fixpoint split_ws_from (after_sep : bool) (s : string) : list string :=
  match s with
  | EmptyString => [EmptyString]
  | String c s' =>
      if is_space c then
        if after_sep then split_ws_from true s'
        else EmptyString :: split_ws_from true s'
      else
        match split_ws_from false s' with
        | tok :: rest => String c tok :: rest
        | [] => [String c EmptyString]
        end
  end.

Definition split_ws (s : string) : list string :=
  match split_ws_from false s with
  | first :: rest => first :: rest
  | [] => [EmptyString]
  end.

(** [s.split(sep)[0]] for a one-character separator *)
Definition before_char (sep : ascii) (s : string) : string :=
  fst (span (fun c => negb (Ascii.eqb c sep)) s).

(** [parts.join(' ')] *)
Fixpoint join_space (parts : list string) : string :=
  match parts with
  | [] => EmptyString
  | [p] => p
  | p :: rest => p +:+ " " +:+ join_space rest
  end.

(** The first maximal run of characters satisfying [p], and what follows. *)
Fixpoint first_run (p : ascii -> bool) (s : string) : option (string * string) :=
  match s with
  | EmptyString => None
  | String c s' => if p c then Some (span p s) else first_run p s'
  end.

End Str.

(** ** [parseFloat] and [parseInt] on strings *)

Module Parse.

Import Num Str.

Definition digit_value (c : ascii) : N := (code c - 48)%N.

Fixpoint digits_value (acc : N) (s : string) : N :=
  match s with
  | EmptyString => acc
  | String c s' => digits_value (acc * 10 + digit_value c) s'
  end.

Definition is_hex_digit (c : ascii) : bool :=
  is_digit c || between 65 70 c || between 97 102 c.

Definition hex_digit_value (c : ascii) : N :=
  if is_digit c then (code c - 48)%N
  else if between 65 70 c then (code c - 55)%N
  else (code c - 87)%N.

Fixpoint hex_value (acc : N) (s : string) : N :=
  match s with
  | EmptyString => acc
  | String c s' => hex_value (acc * 16 + hex_digit_value c) s'
  end.

(** An optional sign: [true] for a leading minus. *)
Definition read_sign (s : string) : bool * string :=
  match s with
  | String "-" s' => (true, s')
  | String "+" s' => (false, s')
  | _ => (false, s)
  end.

Definition with_sign (negative : bool) (a : num) : num :=
  if negative then neg a else a.

(** The exponent part [e], [e+] or [e-] followed by at least one digit. *)
Definition read_exponent (s : string) : Z :=
  match s with
  | String c s' =>
      if Ascii.eqb c "e" || Ascii.eqb c "E" then
        let '(negative, s'') := read_sign s' in
        let '(ds, _) := span is_digit s'' in
        if nonempty ds then
          let e := Z.of_N (digits_value 0 ds) in
          if negative then (- e)%Z else e
        else 0%Z
      else 0%Z
  | EmptyString => 0%Z
  end.

(** [parseFloat(s)]: leading white space is skipped and the longest prefix
    that is a decimal literal is read; NaN when there is none. *)
Definition parseFloat (s : string) : num :=
  let '(negative, body) := read_sign (trimStart s) in
  if String.prefix "Infinity" body then with_sign negative PosInf
  else
    let '(int_part, after_int) := span is_digit body in
    let '(frac_part, after_frac) :=
      match after_int with
      | String "." s' => span is_digit s'
      | _ => (EmptyString, after_int)
      end in
    if nonempty int_part || nonempty frac_part then
      let mantissa := inject_Z (Z.of_N (digits_value 0 (int_part +:+ frac_part))) in
      let exponent :=
        (read_exponent after_frac - Z.of_nat (String.length frac_part))%Z in
      with_sign negative (Fin (mantissa * Qpower 10 exponent))
    else NaN.

(** [parseInt(s)] without a radix: decimal, or hexadecimal after [0x]. *)
Definition parseInt (s : string) : num :=
  let '(negative, body) := read_sign (trimStart s) in
  if String.prefix "0x" body || String.prefix "0X" body then
    let '(ds, _) := span is_hex_digit (drop 2 body) in
    if nonempty ds then with_sign negative (of_N (hex_value 0 ds)) else NaN
  else
    let '(ds, _) := span is_digit body in
    if nonempty ds then with_sign negative (of_N (digits_value 0 ds)) else NaN.

End Parse.

(** ** Dynamically typed values *)

Module Value.

#[warnings="-register-all"] Inductive jsval : Type :=
| JUndefined
| JNull
| JBool (b : bool)
| JNum (n : num)
| JStr (s : string)
| JArr (items : list jsval)
| JObj (fields : list (string * jsval)).

Definition truthy (v : jsval) : bool :=
  match v with
  | JUndefined | JNull => false
  | JBool b => b
  | JNum n => Num.truthy n
  | JStr s => Str.nonempty s
  | JArr _ | JObj _ => true
  end.

(** [a || b] *)
Definition or_else (a b : jsval) : jsval := if truthy a then a else b.

Fixpoint lookup_field (key : string) (fields : list (string * jsval)) : jsval :=
  match fields with
  | [] => JUndefined
  | (k, v) :: rest => if String.eqb k key then v else lookup_field key rest
  end.

(** [v.key] and [v['key']], for the property names the parsers read: none of
    them is a property of a string, a number, a boolean or an array. *)
Definition get (v : jsval) (key : string) : result jsval :=
  match v with
  | JUndefined =>
      Throw (TypeError ("Cannot read properties of undefined (reading '" +:+ key +:+ "')"))
  | JNull =>
      Throw (TypeError ("Cannot read properties of null (reading '" +:+ key +:+ "')"))
  | JObj fields => Ok (lookup_field key fields)
  | _ => Ok JUndefined
  end.

(** [v?.key] *)
Definition opt_get (v : jsval) (key : string) : result jsval :=
  match v with
  | JUndefined | JNull => Ok JUndefined
  | _ => get v key
  end.

(** [v[0]] *)
Definition first (v : jsval) : result jsval :=
  match v with
  | JArr (x :: _) => Ok x
  | JStr (String c _) => Ok (JStr (String c EmptyString))
  | JObj fields => Ok (lookup_field "0" fields)
  | _ => get v "0"
  end.

(** [v?.[0]] *)
Definition opt_first (v : jsval) : result jsval :=
  match v with
  | JUndefined | JNull => Ok JUndefined
  | _ => first v
  end.

(** [Array.isArray(v)] *)
Definition isArray (v : jsval) : bool :=
  match v with
  | JArr _ => true
  | _ => false
  end.

(** [v === text] *)
Definition is_string (text : string) (v : jsval) : bool :=
  match v with
  | JStr s => String.eqb s text
  | _ => false
  end.

(** [v?.includes(text)]: a substring test on a string, a membership test on
    an array; on any other value that is not nullish [includes] is not a
    function. *)
Definition opt_includes (v : jsval) (text : string) : result bool :=
  match v with
  | JUndefined | JNull => Ok false
  | JStr s => Ok (Str.includes s text)
  | JArr items => Ok (existsb (is_string text) items)
  | _ => Throw (TypeError "includes is not a function")
  end.

Fixpoint chars (s : string) : list jsval :=
  match s with
  | EmptyString => []
  | String c s' => JStr (String c EmptyString) :: chars s'
  end.

(** The values [for (const x of v)] runs through. *)
Definition iterate (v : jsval) : result (list jsval) :=
  match v with
  | JArr items => Ok items
  | JStr s => Ok (chars s)
  | _ => Throw (TypeError "object is not iterable")
  end.

(** [parseFloat(v)]: the argument is converted to a string first, so an
    array is read through its first element. *)
Fixpoint parseFloat (v : jsval) : num :=
  match v with
  | JStr s => Parse.parseFloat s
  | JNum n => n
  | JArr (x :: _) => parseFloat x
  | _ => Num.NaN
  end.

(** Rounding towards zero. *)
Definition truncate (q : Q) : num :=
  Num.Fin (inject_Z (if Num.Qltb q 0 then Qceiling q else Qfloor q)).

(** [parseInt(v)]; a number is read back from its decimal notation, which is
    the truncation for the magnitudes printed without an exponent. *)
Fixpoint parseInt (v : jsval) : num :=
  match v with
  | JStr s => Parse.parseInt s
  | JNum (Num.Fin q) => truncate q
  | JArr (x :: _) => parseInt x
  | _ => Num.NaN
  end.

(** A string, or [null]. *)
Definition of_text (o : option string) : jsval :=
  match o with
  | Some s => JStr s
  | None => JNull
  end.

(** A number, or [null]. *)
Definition of_number (o : option num) : jsval :=
  match o with
  | Some n => JNum n
  | None => JNull
  end.

(** The string held by a property, if it holds one. *)
Definition text_of (o : option jsval) : option string :=
  match o with
  | Some (JStr s) => Some s
  | _ => None
  end.

End Value.

Export Value (jsval).

(** ** schema.js *)

Module Schema.

Import Num.

Inductive Condition : Type := CNew | CRefurb | CUsed | CUnknown.

(** The string constants of [CONDITIONS]. *)
Definition condition_string (c : Condition) : string :=
  match c with
  | CNew => "new"
  | CRefurb => "refurb"
  | CUsed => "used"
  | CUnknown => "unknown"
  end.

Inductive ShippingMethod : Type := MStandard | MExpedited | MUnknown.

Record Price : Type := { value : num; currency : string }.

Record Shipping : Type :=
  { cost : option num; eta_days : option num; method : ShippingMethod }.

Record Returns : Type :=
  { available : option bool; window_days : option num; unknown : bool }.

Record Seller : Type :=
  { name : option string; rating : option num; reviews : option num;
    is_official : option bool }.

Record Specs : Type :=
  { brand : option string; model : option string; key_terms : list string }.

Record Signals : Type := { sponsored : bool; low_stock : option bool }.

Record Raw : Type := { captured_at : string; notes : option string }.

Record Listing : Type :=
  { id : string;
    source : string;
    title : option string;
    url : option string;
    image_url : option string;
    price : option Price;
    condition : Condition;
    shipping : Shipping;
    returns : Returns;
    seller : Seller;
    specs : Specs;
    signals : Signals;
    raw : Raw }.

(** [createEmptyListing()]; [now] is [new Date().toISOString()]. *)
Definition createEmptyListing (now : string) : Listing :=
  {| id := "";
     source := "manual";
     title := Some "";
     url := Some "";
     image_url := None;
     price := Some {| value := Fin 0; currency := "USD" |};
     condition := CUnknown;
     shipping := {| cost := None; eta_days := None; method := MUnknown |};
     returns := {| available := None; window_days := None; unknown := true |};
     seller := {| name := None; rating := None; reviews := None;
                  is_official := None |};
     specs := {| brand := None; model := None; key_terms := [] |};
     signals := {| sponsored := false; low_stock := None |};
     raw := {| captured_at := now; notes := None |} |}.

(** Assignments to single properties of a listing, [listing.f = v] and
    [listing.g.f = v]. *)
Definition set_id (l : Listing) (v : string) : Listing :=
  {| id := v; source := source l; title := title l; url := url l;
     image_url := image_url l; price := price l; condition := condition l;
     shipping := shipping l; returns := returns l; seller := seller l;
     specs := specs l; signals := signals l; raw := raw l |}.

Definition set_title (l : Listing) (v : option string) : Listing :=
  {| id := id l; source := source l; title := v; url := url l;
     image_url := image_url l; price := price l; condition := condition l;
     shipping := shipping l; returns := returns l; seller := seller l;
     specs := specs l; signals := signals l; raw := raw l |}.

Definition set_url (l : Listing) (v : option string) : Listing :=
  {| id := id l; source := source l; title := title l; url := v;
     image_url := image_url l; price := price l; condition := condition l;
     shipping := shipping l; returns := returns l; seller := seller l;
     specs := specs l; signals := signals l; raw := raw l |}.

Definition set_image_url (l : Listing) (v : option string) : Listing :=
  {| id := id l; source := source l; title := title l; url := url l;
     image_url := v; price := price l; condition := condition l;
     shipping := shipping l; returns := returns l; seller := seller l;
     specs := specs l; signals := signals l; raw := raw l |}.

Definition set_price (l : Listing) (v : option Price) : Listing :=
  {| id := id l; source := source l; title := title l; url := url l;
     image_url := image_url l; price := v; condition := condition l;
     shipping := shipping l; returns := returns l; seller := seller l;
     specs := specs l; signals := signals l; raw := raw l |}.

Definition set_condition (l : Listing) (v : Condition) : Listing :=
  {| id := id l; source := source l; title := title l; url := url l;
     image_url := image_url l; price := price l; condition := v;
     shipping := shipping l; returns := returns l; seller := seller l;
     specs := specs l; signals := signals l; raw := raw l |}.

Definition set_shipping (l : Listing) (v : Shipping) : Listing :=
  {| id := id l; source := source l; title := title l; url := url l;
     image_url := image_url l; price := price l; condition := condition l;
     shipping := v; returns := returns l; seller := seller l;
     specs := specs l; signals := signals l; raw := raw l |}.

Definition set_returns (l : Listing) (v : Returns) : Listing :=
  {| id := id l; source := source l; title := title l; url := url l;
     image_url := image_url l; price := price l; condition := condition l;
     shipping := shipping l; returns := v; seller := seller l;
     specs := specs l; signals := signals l; raw := raw l |}.

Definition set_seller (l : Listing) (v : Seller) : Listing :=
  {| id := id l; source := source l; title := title l; url := url l;
     image_url := image_url l; price := price l; condition := condition l;
     shipping := shipping l; returns := returns l; seller := v;
     specs := specs l; signals := signals l; raw := raw l |}.

Definition set_specs (l : Listing) (v : Specs) : Listing :=
  {| id := id l; source := source l; title := title l; url := url l;
     image_url := image_url l; price := price l; condition := condition l;
     shipping := shipping l; returns := returns l; seller := seller l;
     specs := v; signals := signals l; raw := raw l |}.

Definition set_signals (l : Listing) (v : Signals) : Listing :=
  {| id := id l; source := source l; title := title l; url := url l;
     image_url := image_url l; price := price l; condition := condition l;
     shipping := shipping l; returns := returns l; seller := seller l;
     specs := specs l; signals := v; raw := raw l |}.

(** [listing.price.value = v]; the parsers create every listing with a price. *)
Definition set_price_value (l : Listing) (v : num) : Listing :=
  set_price l
    (match price l with
     | Some p => Some {| value := v; currency := currency p |}
     | None => None
     end).

Definition set_shipping_cost (l : Listing) (v : option num) : Listing :=
  set_shipping l
    {| cost := v; eta_days := eta_days (shipping l);
       method := method (shipping l) |}.

Definition set_returns_available (l : Listing) (v : option bool) : Listing :=
  set_returns l
    {| available := v; window_days := window_days (returns l);
       unknown := unknown (returns l) |}.

Definition set_returns_window_days (l : Listing) (v : option num) : Listing :=
  set_returns l
    {| available := available (returns l); window_days := v;
       unknown := unknown (returns l) |}.

Definition set_seller_rating (l : Listing) (v : option num) : Listing :=
  set_seller l
    {| name := name (seller l); rating := v; reviews := reviews (seller l);
       is_official := is_official (seller l) |}.

Definition set_seller_reviews (l : Listing) (v : option num) : Listing :=
  set_seller l
    {| name := name (seller l); rating := rating (seller l); reviews := v;
       is_official := is_official (seller l) |}.

Definition set_specs_brand (l : Listing) (v : option string) : Listing :=
  set_specs l
    {| brand := v; model := model (specs l);
       key_terms := key_terms (specs l) |}.

Definition set_specs_key_terms (l : Listing) (v : list string) : Listing :=
  set_specs l
    {| brand := brand (specs l); model := model (specs l); key_terms := v |}.

Definition set_signals_sponsored (l : Listing) (v : bool) : Listing :=
  set_signals l {| sponsored := v; low_stock := low_stock (signals l) |}.

Definition set_signals_low_stock (l : Listing) (v : option bool) : Listing :=
  set_signals l {| sponsored := sponsored (signals l); low_stock := v |}.

(** The test [listing.title && listing.url] of the scrapers. *)
Definition usable (l : Listing) : bool :=
  Str.truthy (title l) && Str.truthy (url l).

(** A weights object; [Object.values] and [Object.entries] enumerate it
    through [map_to_list]. *)
Abbreviation Weights := (gmap string num).

Definition weight_values (weights : Weights) : list num :=
  snd <$> map_to_list weights.

(** [Object.values(weights).reduce((a, b) => a + b, 0)] *)
Definition weight_sum (weights : Weights) : num :=
  fold_left add (weight_values weights) zero.

Record DecisionSpec : Type :=
  { query : string;
    budget_max : num;
    condition_allowed : list Condition;
    delivery_priority : string;
    risk_tolerance : string;
    required_keywords : list string;
    banned_keywords : list string;
    brand_whitelist : list string;
    brand_blacklist : list string;
    weights : Weights }.

Definition default_weights : Weights :=
  <["price" := Fin 0.25]>
    (<["delivery" := Fin 0.20]>
      (<["reliability" := Fin 0.25]>
        (<["returns" := Fin 0.15]>
          (<["spec_match" := Fin 0.15]> ∅)))).

Definition createDefaultDecisionSpec : DecisionSpec :=
  {| query := "";
     budget_max := Fin 500;
     condition_allowed := [CNew; CRefurb];
     delivery_priority := "med";
     risk_tolerance := "med";
     required_keywords := [];
     banned_keywords := [];
     brand_whitelist := [];
     brand_blacklist := [];
     weights := default_weights |}.

(** [Math.abs(sum - 1.0) < 0.01] *)
Definition validateWeights (weights : Weights) : bool :=
  let sum := weight_sum weights in
  ltb (abs (sub sum (Fin 1))) (Fin 0.01).

Definition normalizeWeights (weights : Weights) : Weights :=
  let sum := weight_sum weights in
  if eqb sum zero then weights
  else
    fold_left (fun normalized '(key, value) => <[key := div value sum]> normalized)
              (map_to_list weights) ∅.

End Schema.

(** ** The DOM, as the parsers read it *)

Module Node.

(** An element reached by a query.  [href], [src], [alt], [title] and
    [content] are the IDL properties of that name, [None] where the element
    has no such property ([href] of an element that is not a link). *)
Record t : Type :=
  { textContent : option string;
    getAttribute : string -> option string;
    href : option string;
    src : option string;
    alt : option string;
    title : option string;
    content : option string }.

(** [node.textContent?.trim()] *)
Definition trimmed_text (n : t) : option string := Str.trim <$> textContent n.

(** [node.textContent?.toLowerCase() || ''] *)
Definition lower_text (n : t) : string :=
  match textContent n with
  | Some s => Str.toLowerCase s
  | None => ""
  end.

End Node.

Module Element.

(** A result card: its own text, and the answers of [el.querySelector]. *)
Record t : Type :=
  { textContent : option string;
    querySelector : string -> option Node.t }.

End Element.

Module Clock.

(** One reading of the clock: [Date.now()] and [new Date().toISOString()]. *)
Record t : Type := { now : N; toISOString : string }.

End Clock.

Module Document.

Record t : Type :=
  { hostname : string;                         (* window.location.hostname *)
    location_href : string;                    (* window.location.href *)
    querySelector : string -> option Node.t;
    querySelectorAll : string -> list Element.t;
    (** the [script[type="application/ld+json"]] elements, each as the
        outcome of [JSON.parse(script.textContent)] *)
    ld_json : list (result jsval) }.

End Document.

(** ** The regular expressions of the parsers

    Each function is the result of [s.match(re)] or [s.replace(re, r)] for
    one regular-expression literal of the source, written out for that
    literal: the leftmost match, every quantifier greedy. *)

Module Regex.

Import Str.

Definition is_digit_or_comma (c : ascii) : bool := is_digit c || Ascii.eqb c ",".

Definition is_digit_or_dot (c : ascii) : bool := is_digit c || Ascii.eqb c ".".

(** [s.replace(/,/g, '')] *)
Definition strip_commas (s : string) : string :=
  filter_chars (fun c => negb (Ascii.eqb c ",")) s.

(** [s.replace(/[,$]/g, '')] *)
Definition strip_commas_dollars (s : string) : string :=
  filter_chars (fun c => negb (Ascii.eqb c "," || Ascii.eqb c "$")) s.

(** [s.replace(/\D/g, '')] *)
Definition keep_digits (s : string) : string := filter_chars is_digit s.

(** [s.replace(/[^\w\s]/g, ' ')] *)
Definition blank_punctuation (s : string) : string :=
  map_chars (fun c => if is_word c || is_space c then c else " "%char) s.

(** Capture 1 of [/\/p\/([^/?]+)/]: after the leftmost [/p/] that is followed
    by a character other than [/] and [?], the run of such characters. *)
Fixpoint match_item_id (s : string) : option string :=
  match s with
  | EmptyString => None
  | String _ s' =>
      let here :=
        if String.prefix "/p/" s then
          let '(run, _) :=
            span (fun c => negb (Ascii.eqb c "/" || Ascii.eqb c "?")) (drop 3 s) in
          if nonempty run then Some run else None
        else None in
      match here with
      | Some run => Some run
      | None => match_item_id s'
      end
  end.

(** At most [n] leading digits. *)
Fixpoint leading_digits (n : nat) (s : string) : string :=
  match n, s with
  | S n', String c s' =>
      if is_digit c then String c (leading_digits n' s') else EmptyString
  | _, _ => EmptyString
  end.

(** Captures 1 and 2 of [/\$?([\d,]+)\.?(\d{0,2})/]: the first run of digits
    and commas, then, past an optional dot, up to two digits. *)
Definition match_dollars_cents (s : string) : option (string * string) :=
  match first_run is_digit_or_comma s with
  | Some (dollars, rest) =>
      let rest' := match rest with String "." r => r | _ => rest end in
      Some (dollars, leading_digits 2 rest')
  | None => None
  end.

(** Capture 1 of the amount patterns of [parseListingElement] and
    [parsePrice], [\$?] (then [\s*] in [parsePrice]) followed by the group
    [[\d,]+\.?] and any number of [\d]: the first run of digits and commas,
    an optional dot, and the digits after. *)
Definition match_amount (s : string) : option string :=
  match first_run is_digit_or_comma s with
  | Some (whole, rest) =>
      match rest with
      | String "." r => Some (whole +:+ "." +:+ fst (span is_digit r))
      | _ => Some (whole +:+ fst (span is_digit rest))
      end
  | None => None
  end.

(** Capture 1 of [/\$([\d.]+)/]: the digits and dots after the leftmost
    dollar sign that has one behind it. *)
Fixpoint match_dollar_amount (s : string) : option string :=
  match s with
  | EmptyString => None
  | String c s' =>
      if Ascii.eqb c "$" then
        let '(run, _) := span is_digit_or_dot s' in
        if nonempty run then Some run else match_dollar_amount s'
      else match_dollar_amount s'
  end.

(** What must follow capture 1 of the rating pattern: [\s*out of\s*5],
    letters compared without case. *)
Definition out_of_five (s : string) : bool :=
  let s1 := drop_while is_space s in
  String.prefix "out of" (toLowerCase s1) &&
  String.prefix "5" (drop_while is_space (drop 6 s1)).

(** Capture 1 of [/([\d.]+)\s*out of\s*5/i] *)
Fixpoint match_rating (s : string) : option string :=
  match s with
  | EmptyString => None
  | String c s' =>
      if is_digit_or_dot c then
        let '(run, rest) := span is_digit_or_dot s in
        if out_of_five rest then Some run else match_rating s'
      else match_rating s'
  end.

(** Capture 1 of [/\(?\s*([\d,]+)\s*\)?/]: the first run of digits and
    commas. *)
Definition match_review_count (s : string) : option string :=
  fst <$> first_run is_digit_or_comma s.

End Regex.

(** Selectors are written with single quotes around attribute values where
    the source has double quotes: the same selector. *)

(** ** newegg_search_parser.js *)

Module NeweggSearchParser.

Import Num Str Schema.

(** The object literal [parseItem] starts from. *)
Definition initial_listing (clock : Clock.t) (index : nat) : Listing :=
  {| id := "newegg-" +:+ pretty (Clock.now clock) +:+ "-" +:+ pretty index;
     source := "newegg";
     title := Some "";
     url := Some "";
     image_url := None;
     price := Some {| value := Fin 0; currency := "USD" |};
     condition := CNew;
     shipping := {| cost := None; eta_days := None; method := MUnknown |};
     returns := {| available := None; window_days := None; unknown := true |};
     seller := {| name := None; rating := None; reviews := None;
                  is_official := None |};
     specs := {| brand := None; model := None; key_terms := [] |};
     signals := {| sponsored := false; low_stock := None |};
     raw := {| captured_at := Clock.toISOString clock; notes := None |} |}.

(** Title and URL.  [listing.url.match] throws when [titleLink.href] is
    undefined. *)
Definition parse_title_url (el : Element.t) (listing : Listing) : result Listing :=
  match Element.querySelector el ".item-title, a.item-title, a[title]" with
  | Some titleLink =>
      let listing :=
        set_title listing
          (or_else (Node.trimmed_text titleLink)
                   (Node.getAttribute titleLink "title")) in
      let listing := set_url listing (Node.href titleLink) in
      match url listing with
      | Some u =>
          match Regex.match_item_id u with
          | Some item => Ok (set_id listing ("newegg-" +:+ item))
          | None => Ok listing
          end
      | None =>
          Throw (TypeError "Cannot read properties of undefined (reading 'match')")
      end
  | None => Ok listing
  end.

(** [a || d] where [d] is a non-empty string literal. *)
Definition or_default (a : option string) (d : string) : string :=
  match a with
  | Some s => if nonempty s then s else d
  | None => d
  end.

(** Price: [.price-current strong] and [sup], else the fallback price
    parsing. *)
Definition parse_price (el : Element.t) (listing : Listing) : Listing :=
  let priceStrong := Element.querySelector el ".price-current strong" in
  let priceSup := Element.querySelector el ".price-current sup" in
  match priceStrong with
  | Some strong =>
      let dollars :=
        or_default (Regex.strip_commas_dollars <$> Node.textContent strong) "0" in
      let cents :=
        or_default (sup ← priceSup; Regex.keep_digits <$> Node.textContent sup) "00" in
      set_price_value listing (Parse.parseFloat (dollars +:+ "." +:+ cents))
  | None =>
      match Element.querySelector el ".price-current, [class*='price']" with
      | Some priceEl =>
          let priceText := or_default (Node.textContent priceEl) "" in
          match Regex.match_dollars_cents priceText with
          | Some (whole, fraction) =>
              set_price_value listing
                (Parse.parseFloat
                   (Regex.strip_commas whole +:+ "." +:+
                    (if nonempty fraction then fraction else "00")))
          | None => listing
          end
      | None => listing
      end
  end.

(** Shipping *)
Definition parse_shipping (el : Element.t) (listing : Listing) : Listing :=
  match Element.querySelector el ".price-ship, [class*='shipping']" with
  | Some shippingEl =>
      let shippingText := Node.lower_text shippingEl in
      if includes shippingText "free" then set_shipping_cost listing (Some (Fin 0))
      else
        match Regex.match_dollar_amount shippingText with
        | Some amount => set_shipping_cost listing (Some (Parse.parseFloat amount))
        | None => listing
        end
  | None => listing
  end.

(** Rating: the [aria-label], converted from 5 stars to the scale 0-100. *)
Definition parse_rating (el : Element.t) (listing : Listing) : Listing :=
  match Element.querySelector el ".item-rating, [class*='rating']" with
  | Some ratingEl =>
      let ariaLabel :=
        or_else (Node.getAttribute ratingEl "aria-label") (Node.title ratingEl) in
      match ariaLabel ≫= Regex.match_rating with
      | Some stars =>
          set_seller_rating listing
            (Some (mul (div (Parse.parseFloat stars) (Fin 5)) (Fin 100)))
      | None => listing
      end
  | None => listing
  end.

(** Reviews *)
Definition parse_reviews (el : Element.t) (listing : Listing) : Listing :=
  match Element.querySelector el ".item-rating-num, [class*='review-count']" with
  | Some reviewCountEl =>
      let text := or_default (Node.textContent reviewCountEl) "" in
      match Regex.match_review_count text with
      | Some count =>
          set_seller_reviews listing (Some (Parse.parseInt (Regex.strip_commas count)))
      | None => listing
      end
  | None => listing
  end.

(** Brand: the brand element, else the first word of the title. *)
Definition parse_brand (el : Element.t) (listing : Listing) : Listing :=
  let listing :=
    match Element.querySelector el ".item-brand img, [class*='brand']" with
    | Some brandEl =>
        set_specs_brand listing
          (or_else (Node.alt brandEl) (Node.trimmed_text brandEl))
    | None => listing
    end in
  match title listing with
  | Some t =>
      if negb (truthy (brand (specs listing))) && nonempty t then
        match split_ws t with
        | word :: _ => set_specs_brand listing (Some word)
        | [] => listing
        end
      else listing
  | None => listing
  end.

(** Image *)
Definition parse_image (el : Element.t) (listing : Listing) : Listing :=
  match Element.querySelector el ".item-img img, img[src*='newegg']" with
  | Some img =>
      set_image_url listing (or_else (Node.src img) (Node.getAttribute img "data-src"))
  | None => listing
  end.

(** Promo/Sponsored detection *)
Definition parse_promo (el : Element.t) (listing : Listing) : Listing :=
  match Element.querySelector el ".item-promo, [class*='sponsored']" with
  | Some promoEl =>
      let text := Node.lower_text promoEl in
      set_signals_sponsored listing (includes text "sponsored" || includes text "ad")
  | None => listing
  end.

(** Stock status *)
Definition parse_stock (el : Element.t) (listing : Listing) : Listing :=
  match Element.querySelector el "[class*='stock'], .item-stock" with
  | Some stockEl =>
      let text := Node.lower_text stockEl in
      set_signals_low_stock listing
        (Some (includes text "limited" || includes text "few left"))
  | None => listing
  end.

(** [title.toLowerCase().replace(/[^\w\s]/g, ' ').split(/\s+/)
      .filter(w => w.length > 2).slice(0, 10)] *)
Definition extract_key_terms (title : string) : list string :=
  take 10
    (List.filter (fun w => (2 <? String.length w)%nat)
       (split_ws (Regex.blank_punctuation (toLowerCase title)))).

(** Extract key terms from title *)
Definition parse_key_terms (listing : Listing) : Listing :=
  match title listing with
  | Some t =>
      if nonempty t then set_specs_key_terms listing (extract_key_terms t)
      else listing
  | None => listing
  end.

(** [parseItem(el, index)]: the steps in the order of the source; the last
    two assignments are the return policy, written whatever the card shows. *)
Definition parseItem (clock : Clock.t) (el : Element.t) (index : nat)
  : result Listing :=
  let listing := initial_listing clock index in
  listing ← parse_title_url el listing;
  let listing := parse_price el listing in
  let listing := parse_shipping el listing in
  let listing := parse_rating el listing in
  let listing := parse_reviews el listing in
  let listing := parse_brand el listing in
  let listing := parse_image el listing in
  let listing := parse_promo el listing in
  let listing := parse_stock el listing in
  let listing := parse_key_terms listing in
  let listing := set_returns_available listing (Some true) in
  let listing := set_returns_window_days listing (Some (Fin 30)) in
  Ok listing.

(** One turn of [items.forEach((item, index) => { try ... catch ... })]. *)
Definition scrape_item (clock : nat -> Clock.t) (listings : list Listing)
    (item : Element.t) (index : nat) : result (list Listing) :=
  try_catch
    (listing ← parseItem (clock index) item index;
     if usable listing then Ok (listings ++ [listing]) else Ok listings)
    (fun e => Ok listings).

Fixpoint scrape_items (clock : nat -> Clock.t) (items : list Element.t)
    (index : nat) (listings : list Listing) : result (list Listing) :=
  match items with
  | [] => Ok listings
  | item :: rest =>
      listings ← scrape_item clock listings item index;
      scrape_items clock rest (S index) listings
  end.

(** [clock i] is the clock as [parseItem] reads it for the item of index [i]. *)
Definition scrape (clock : nat -> Clock.t) (document : Document.t)
  : result (list Listing) :=
  let itemCells := Document.querySelectorAll document ".item-cell, .item-container" in
  let items :=
    if (0 <? length itemCells)%nat then itemCells
    else Document.querySelectorAll document
           "[class*='product-grid'] > div, .list-wrap .item" in
  listings ← scrape_items clock items 0 [];
  Ok (take 20 listings).

End NeweggSearchParser.

(** ** generic_search_page.js *)

Module GenericSearchParser.

Import Num Str Schema.

Definition detectSource (document : Document.t) : string :=
  let hostname := toLowerCase (Document.hostname document) in
  if includes hostname "ebay" then "ebay"
  else if includes hostname "newegg" then "newegg"
  else if includes hostname "amazon" then "amazon"
  else if includes hostname "bestbuy" then "bestbuy"
  else before_char "." (replace_first "www." "" hostname).

(** The object literal [parseListingElement] starts from; it has no
    [image_url] property. *)
Definition initial_listing (clock : Clock.t) (document : Document.t)
    (index : nat) : Listing :=
  {| id := "generic-" +:+ pretty (Clock.now clock) +:+ "-" +:+ pretty index;
     source := detectSource document;
     title := Some "";
     url := Some "";
     image_url := None;
     price := Some {| value := Fin 0; currency := "USD" |};
     condition := CUnknown;
     shipping := {| cost := None; eta_days := None; method := MUnknown |};
     returns := {| available := None; window_days := None; unknown := true |};
     seller := {| name := None; rating := None; reviews := None;
                  is_official := None |};
     specs := {| brand := None; model := None; key_terms := [] |};
     signals := {| sponsored := false; low_stock := None |};
     raw := {| captured_at := Clock.toISOString clock; notes := None |} |}.

(** The condition branch of [parseListingElement], on the lower-cased text of
    the condition element. *)
Definition classify_condition (text : string) (current : Condition) : Condition :=
  if includes text "new" then CNew
  else if includes text "refurb" then CRefurb
  else if includes text "used" then CUsed
  else current.

Definition parseListingElement (clock : Clock.t) (document : Document.t)
    (el : Element.t) (index : nat) : Listing :=
  let listing := initial_listing clock document index in
  (* Title & URL *)
  let listing :=
    match Element.querySelector el "a[href*='http'], a.item-title, a[class*='product']" with
    | Some link =>
        let listing :=
          set_title listing
            (or_else (Node.trimmed_text link)
               (Element.querySelector el "h3, h4, [class*='title']"
                  ≫= Node.trimmed_text)) in
        set_url listing (Node.href link)
    | None => listing
    end in
  (* Price *)
  let listing :=
    match Element.querySelector el "[class*='price'], .s-item__price" with
    | Some priceEl =>
        match Node.textContent priceEl ≫= Regex.match_amount with
        | Some amount =>
            set_price_value listing (Parse.parseFloat (Regex.strip_commas amount))
        | None => listing
        end
    | None => listing
    end in
  (* Shipping *)
  let listing :=
    match Element.querySelector el "[class*='shipping'], .s-item__shipping" with
    | Some shippingEl =>
        let text := Node.lower_text shippingEl in
        if includes text "free" then set_shipping_cost listing (Some (Fin 0))
        else
          match Regex.match_dollar_amount text with
          | Some amount => set_shipping_cost listing (Some (Parse.parseFloat amount))
          | None => listing
          end
    | None => listing
    end in
  (* Condition *)
  let listing :=
    match Element.querySelector el "[class*='condition']" with
    | Some conditionEl =>
        set_condition listing
          (classify_condition (Node.lower_text conditionEl) (condition listing))
    | None => listing
    end in
  (* Sponsored *)
  let sponsored :=
    match Element.textContent el with
    | Some text => includes (toLowerCase text) "sponsored"
    | None => false
    end
    || bool_decide (is_Some (Element.querySelector el "[class*='sponsored']")) in
  let listing := set_signals_sponsored listing sponsored in
  (* Image *)
  match Element.querySelector el "img[src*='http']" with
  | Some img => set_image_url listing (Node.src img)
  | None => listing
  end.

Definition listingSelectors : list string :=
  [ ".srp-results .s-item";
    ".item-cells-wrap .item-cell";
    "[data-testid='product-card']";
    ".product-card";
    ".search-result-item";
    "[class*='product-listing']";
    "[class*='search-item']" ].

(** The loop over [listingSelectors]: the elements of the first selector
    that matches any. *)
Fixpoint first_matching (document : Document.t) (selectors : list string)
  : list Element.t :=
  match selectors with
  | [] => []
  | selector :: rest =>
      let elements := Document.querySelectorAll document selector in
      if (0 <? length elements)%nat then elements
      else first_matching document rest
  end.

(** [array.map((el, index) => f(el, index))] *)
Fixpoint map_indexed {A B : Type} (f : A -> nat -> B) (index : nat) (l : list A)
  : list B :=
  match l with
  | [] => []
  | x :: rest => f x index :: map_indexed f (S index) rest
  end.

Definition scrapeResults (clock : nat -> Clock.t) (document : Document.t)
  : list Listing :=
  let listingElements := first_matching document listingSelectors in
  List.filter usable
    (map_indexed (fun el index => parseListingElement (clock index) document el index)
       0 (take 20 listingElements)).

End GenericSearchParser.

(** ** generic_product_page.js *)

Module GenericProductParser.

Import Num Str Schema Value.

(** A page Context, and the objects merged into it. *)
Abbreviation Context := (gmap string jsval).

Definition detectSource (document : Document.t) : string :=
  let hostname := toLowerCase (Document.hostname document) in
  if includes hostname "ebay" then "ebay"
  else if includes hostname "newegg" then "newegg"
  else if includes hostname "amazon" then "amazon"
  else if includes hostname "bestbuy" then "bestbuy"
  else if includes hostname "walmart" then "walmart"
  else if includes hostname "target" then "target"
  else before_char "." (replace_first "www." "" hostname).

(** [text.toLowerCase()] on a value that is not a string is a call of
    [undefined]. *)
Definition parseCondition (text : jsval) : result Condition :=
  if negb (Value.truthy text) then Ok CUnknown
  else
    match text with
    | JStr s =>
        let lower := toLowerCase s in
        if includes lower "new" then Ok CNew
        else if includes lower "refurb" || includes lower "renewed" then Ok CRefurb
        else if includes lower "used" || includes lower "pre-owned" then Ok CUsed
        else Ok CUnknown
    | _ => Throw (TypeError "text.toLowerCase is not a function")
    end.

Definition parseJsonLdProduct (product : jsval) : result Context :=
  name ← get product "name";
  brand ← get product "brand";
  brand_name ← opt_get brand "name";
  image ← get product "image";
  image0 ← opt_first image;
  description ← get product "description";
  let result : Context :=
    <["description" := description]>
      (<["image" := Value.or_else image0 image]>
        (<["brand" := Value.or_else brand_name brand]>
          (<["title" := name]> ∅))) in
  (* Extract offer/price info *)
  offers ← get product "offers";
  result ←
    (if Value.truthy offers then
       offer ← (if isArray offers then first offers else Ok offers);
       price ← get offer "price";
       priceCurrency ← get offer "priceCurrency";
       availability ← get offer "availability";
       itemCondition ← get offer "itemCondition";
       condition ← parseCondition itemCondition;
       Ok (<["condition" := JStr (condition_string condition)]>
            (<["availability" := availability]>
              (<["currency" := Value.or_else priceCurrency (JStr "USD")]>
                (<["price" := of_number (or_null (Value.parseFloat price))]>
                   result))))
     else Ok result);
  (* Extract rating *)
  aggregateRating ← get product "aggregateRating";
  if Value.truthy aggregateRating then
    ratingValue ← get aggregateRating "ratingValue";
    reviewCount ← get aggregateRating "reviewCount";
    Ok (<["reviewCount" := JNum (Value.parseInt reviewCount)]>
         (<["rating" := JNum (Value.parseFloat ratingValue)]> result))
  else Ok result.

(** The loop over [item['@graph']]: [Some] when it returns from
    [extractJsonLd]. *)
Fixpoint scan_graph (graph : list jsval) : result (option Context) :=
  match graph with
  | [] => Ok None
  | graphItem :: rest =>
      type ← get graphItem "@type";
      if is_string "Product" type then Some <$> parseJsonLdProduct graphItem
      else scan_graph rest
  end.

(** The loop over [items]. *)
Fixpoint scan_items (items : list jsval) : result (option Context) :=
  match items with
  | [] => Ok None
  | item :: rest =>
      type ← get item "@type";
      is_product ←
        (if is_string "Product" type then Ok true else opt_includes type "Product");
      if is_product : bool then Some <$> parseJsonLdProduct item
      else
        graph ← get item "@graph";
        found ←
          (if Value.truthy graph then items' ← iterate graph; scan_graph items'
           else Ok None);
        match found with
        | Some product => Ok (Some product)
        | None => scan_items rest
        end
  end.

(** The body of the loop over the scripts: [try { ... } catch (e) { }];
    [parsed] is [JSON.parse(script.textContent)]. *)
Definition scan_script (parsed : result jsval) : result (option Context) :=
  try_catch
    (data ← parsed;
     let items := match data with JArr items => items | _ => [data] end in
     scan_items items)
    (fun e => Ok None).

Fixpoint scan_scripts (scripts : list (result jsval)) : option Context :=
  match scripts with
  | [] => None
  | parsed :: rest =>
      match scan_script parsed with
      | Ok (Some product) => Some product
      | _ => scan_scripts rest
      end
  end.

Definition extractJsonLd (document : Document.t) : option Context :=
  scan_scripts (Document.ld_json document).

(** [meta?.content || null] *)
Definition getMetaContent (document : Document.t) (name : string) : option string :=
  let selector :=
    "meta[property='" +:+ name +:+ "'], meta[name='" +:+ name +:+ "']" in
  meta ← Document.querySelector document selector;
  if Str.truthy (Node.content meta) then Node.content meta else None.

Definition extractMetaTags (document : Document.t) : Context :=
  let meta := getMetaContent document in
  let title := meta "og:title" in
  let price :=
    or_null (match meta "product:price:amount" with
             | Some text => Parse.parseFloat text
             | None => NaN
             end) in
  let currency :=
    match meta "product:price:currency" with
    | Some c => c
    | None => "USD"
    end in
  let result : Context :=
    <["brand" := of_text (meta "product:brand")]>
      (<["currency" := JStr currency]>
        (<["price" := of_number price]>
          (<["description" := of_text (meta "og:description")]>
            (<["image" := of_text (meta "og:image")]>
              (<["title" := of_text title]> ∅))))) in
  (* Twitter cards *)
  if negb (Str.truthy title) then <["title" := of_text (meta "twitter:title")]> result
  else result.

Fixpoint getFirstText (document : Document.t) (selectors : list string)
  : option string :=
  match selectors with
  | [] => None
  | selector :: rest =>
      match Document.querySelector document selector ≫= Node.trimmed_text with
      | Some text =>
          if nonempty text && (String.length text <? 500)%nat then Some text
          else getFirstText document rest
      | None => getFirstText document rest
      end
  end.

Definition parsePrice (text : option string) : option num :=
  match text with
  | Some t =>
      if nonempty t then
        match Regex.match_amount t with
        | Some amount => Some (Parse.parseFloat (Regex.strip_commas amount))
        | None => None
        end
      else None
  | None => None
  end.

Definition titleSelectors : list string :=
  [ "h1[itemprop='name']"; "[data-testid='product-title']"; ".product-title h1";
    ".product-name h1"; "#productTitle"; "h1.product-title"; ".pdp-title h1";
    "h1" ].

Definition priceSelectors : list string :=
  [ "[itemprop='price']"; "[data-testid='product-price']"; ".product-price";
    ".price-current"; "#priceblock_ourprice"; ".main-price";
    "[class*='price']:not([class*='was-price']):not([class*='old-price'])";
    ".sale-price"; ".now-price" ].

Definition shippingSelectors : list string :=
  [ "[data-testid='shipping-price']"; ".shipping-price"; "#shipping-message";
    "[class*='shipping']"; "[class*='delivery']" ].

Definition brandSelectors : list string :=
  [ "[itemprop='brand']"; ".product-brand"; ".brand-name"; "a[href*='/brand/']" ].

Definition conditionSelectors : list string :=
  [ "[itemprop='itemCondition']"; ".condition"; "[class*='condition']" ].

Definition extractFromDom (document : Document.t) : result Context :=
  let title := getFirstText document titleSelectors in
  let priceText := getFirstText document priceSelectors in
  let price := parsePrice priceText in
  let shippingText := getFirstText document shippingSelectors in
  let shippingCost :=
    match shippingText with
    | Some text =>
        if includes (toLowerCase text) "free" then Some (Fin 0)
        else parsePrice shippingText
    | None => parsePrice shippingText
    end in
  let brand := getFirstText document brandSelectors in
  let conditionText := getFirstText document conditionSelectors in
  condition ← parseCondition (of_text conditionText);
  Ok (<["condition" := JStr (condition_string condition)]>
       (<["brand" := of_text brand]>
         (<["shippingCost" := of_number shippingCost]>
           (<["shippingText" := of_text shippingText]>
             (<["price" := of_number price]>
               (<["title" := of_text title]> (∅ : Context))))))).

(** [[...new Set(parts)]]: the first occurrence of each string, in order. *)
Fixpoint dedupe (seen parts : list string) : list string :=
  match parts with
  | [] => []
  | part :: rest =>
      if existsb (String.eqb part) seen then dedupe seen rest
      else part :: dedupe (part :: seen) rest
  end.

(** [extract] calls this on a Context filled from the meta tags and the DOM,
    where [brand] and [title] hold a string or [null]. *)
Definition generateKeywords (context : Context) : string :=
  let brand_part :=
    match text_of (context !! "brand") with
    | Some brand => if nonempty brand then [brand] else []
    | None => []
    end in
  let titleWords :=
    match text_of (context !! "title") with
    | Some title =>
        if nonempty title then
          take 6
            (List.filter (fun w => (2 <? String.length w)%nat)
               (split_ws (Regex.blank_punctuation title)))
        else []
    | None => []
    end in
  join_space (dedupe [] (brand_part ++ titleWords)).

(** [Object.assign(target, source)] *)
Definition assign (target source : Context) : Context := source ∪ target.

Definition initial_context (clock : Clock.t) (document : Document.t) : Context :=
  <["timestamp" := JStr (Clock.toISOString clock)]>
    (<["source" := JStr (detectSource document)]>
      (<["url" := JStr (Document.location_href document)]>
        (<["type" := JStr "unknown"]> ∅))).

(** The value of a property as a condition: absent is [undefined]. *)
Definition holds (context : Context) (key : string) : bool :=
  match context !! key with
  | Some v => Value.truthy v
  | None => false
  end.

Definition extract (clock : Clock.t) (document : Document.t) : result Context :=
  let context := initial_context clock document in
  (* Try JSON-LD structured data first (most reliable) *)
  match extractJsonLd document with
  | Some jsonLdData =>
      let context := assign context jsonLdData in
      Ok (<["type" := JStr "product"]> context)
  | None =>
      (* Try Open Graph / meta tags *)
      let metaData := extractMetaTags document in
      let context :=
        if holds metaData "title" then assign context metaData else context in
      (* Try common selectors *)
      domData ← extractFromDom document;
      let context :=
        if holds domData "title" || holds domData "price"
        then <["type" := JStr "product"]> (assign context domData)
        else context in
      (* Generate keywords *)
      Ok (<["keywords" := JStr (generateKeywords context)]> context)
  end.

End GenericProductParser.

(** ** The service worker: gathering, ranking, the find-deals handler *)

Module ServiceWorker.

Import Num Schema.

Abbreviation Context := (gmap string jsval).

(** An explanation bullet: the fallback emits plain strings, the ranking
    server objects with a text and a type. *)
Inductive Bullet : Type :=
| Plain (text : string)
| Typed (text : string) (type : string).

Record RankedResult : Type :=
  { listing : Listing;
    score_total : num;
    score_breakdown : gmap string num;
    explanation_bullets : list Bullet }.

(** The value [await response.json()] resolves to, for a body meant to carry
    one property ([listings] or [ranked]): [null], or a value whose property
    is [payload], [None] when it is missing or falsy. *)
Inductive Body (A : Type) : Type :=
| Nullish
| Data (payload : option A).

Arguments Nullish {A}.
Arguments Data {A} payload.

(** A settled [fetch]: [json] throws when the body is not JSON. *)
Record Response (A : Type) : Type :=
  { ok : bool; status : N; json : result (Body A) }.

Arguments ok {A} r.
Arguments status {A} r.
Arguments json {A} r.

(** What the content script answers to [SCRAPE_SEARCH_RESULTS]. *)
Record ScrapeResponse : Type :=
  { error : option string; listings : option (list Listing) }.

(** The world around one run of the agent loop.  [fetch] and the [chrome]
    calls reject with [Throw]. *)
Record World : Type :=
  { (** [fetch(SERVER_URL + '/search/ebay', ...)] for a query *)
    fetch_search_ebay : string -> result (Response (list Listing));
    (** [fetch(SERVER_URL + '/rank', ...)] for a request body *)
    fetch_rank : DecisionSpec -> option Context -> list Listing ->
                 result (Response (list RankedResult));
    (** [chrome.tabs.create({ url, active: false })]: the id of the tab *)
    tabs_create : string -> result N;
    (** [chrome.tabs.sendMessage(tab.id, ...)]; [None] is [undefined] *)
    tabs_sendMessage : N -> result (option ScrapeResponse);
    (** [chrome.tabs.remove(tab.id)] *)
    tabs_remove : N -> result unit;
    (** [new Date().toISOString()] *)
    now : string }.

Definition NEWEGG_SEARCH_URL : string := "https://www.newegg.com/p/pl?d=".

Definition hex_digit (n : N) : ascii :=
  if (n <? 10)%N then ascii_of_N (48 + n) else ascii_of_N (55 + n).

Definition percent (byte : N) : string :=
  String "%" (String (hex_digit (byte / 16)) (String (hex_digit (byte mod 16)) "")).

Definition is_unreserved (c : ascii) : bool :=
  Str.is_word c || Str.includes "-.!~*'()" (String c "").

(** [encodeURIComponent] on Latin-1 text: the UTF-8 bytes of every character
    that is not unreserved, percent-encoded. *)
Fixpoint encodeURIComponent (s : string) : string :=
  match s with
  | EmptyString => EmptyString
  | String c s' =>
      let n := Str.code c in
      (if is_unreserved c then String c ""
       else if (n <? 128)%N then percent n
       else percent (192 + n / 64) +:+ percent (128 + n mod 64))
      +:+ encodeURIComponent s'
  end.

Definition fetchEbayCandidates (world : World) (query : string)
  : result (list Listing) :=
  try_catch
    (response ← fetch_search_ebay world query;
     if negb (ok response)
     then Throw (Error ("eBay API error: " +:+ pretty (status response)))
     else
       data ← json response;
       match data with
       | Nullish =>
           Throw (TypeError "Cannot read properties of null (reading 'listings')")
       | Data (Some found) => Ok found
       | Data None => Ok []
       end)
    (fun error => Ok []).

Definition fetchNeweggCandidates (world : World) (query : string)
  : result (list Listing) :=
  try_catch
    (let searchUrl := NEWEGG_SEARCH_URL +:+ encodeURIComponent query in
     tab ← tabs_create world searchUrl;
     response ← tabs_sendMessage world tab;
     _ ← tabs_remove world tab;
     match response with
     | None =>
         Throw (TypeError "Cannot read properties of undefined (reading 'error')")
     | Some response =>
         if Str.truthy (error response)
         then Throw (Error (default "" (error response)))
         else Ok (default [] (listings response))
     end)
    (fun error => Ok []).

Definition gatherCandidates (world : World) (query : string)
  : result (list Listing) :=
  let allCandidates : list Listing := [] in
  (* Source 1: eBay API (via server) *)
  allCandidates ←
    try_catch
      (ebayResults ← fetchEbayCandidates world query;
       Ok (allCandidates ++ ebayResults))
      (fun error => Ok allCandidates);
  (* Source 2: Newegg (via content script scraping) *)
  allCandidates ←
    try_catch
      (neweggResults ← fetchNeweggCandidates world query;
       Ok (allCandidates ++ neweggResults))
      (fun error => Ok allCandidates);
  Ok allCandidates.

(** [array.sort(compare)]: the sort is stable, and an element moves behind
    another only when [compare] is positive on them; a NaN counts as zero. *)
Fixpoint sort_insert {A : Type} (compare : A -> A -> num) (x : A) (sorted : list A)
  : list A :=
  match sorted with
  | [] => [x]
  | y :: rest =>
      if ltb zero (compare x y) then y :: sort_insert compare x rest
      else x :: y :: rest
  end.

Fixpoint sort {A : Type} (compare : A -> A -> num) (array : list A) : list A :=
  match array with
  | [] => []
  | x :: rest => sort_insert compare x (sort compare rest)
  end.

(** [a.price?.value || 0] *)
Definition price_key (a : Listing) : num :=
  match price a with
  | Some p => or_else (value p) (Fin 0)
  | None => Fin 0
  end.

Definition by_price (a b : Listing) : num := sub (price_key a) (price_key b).

Definition fallback_result (listing : Listing) : RankedResult :=
  {| listing := listing;
     score_total := Fin 0.5;
     score_breakdown := ∅;
     explanation_bullets := [Plain "Ranking unavailable - sorted by price"] |}.

(** The result, and the [candidates] array as the call leaves it: the
    fallback sorts it in place. *)
Definition rankCandidates (world : World) (decisionSpec : DecisionSpec)
    (context : option Context) (candidates : list Listing)
  : result (list RankedResult * list Listing) :=
  try_catch
    (response ← fetch_rank world decisionSpec context candidates;
     if negb (ok response)
     then Throw (Error ("Ranking server error: " +:+ pretty (status response)))
     else
       data ← json response;
       match data with
       | Nullish =>
           Throw (TypeError "Cannot read properties of null (reading 'ranked')")
       | Data (Some ranked) => Ok (ranked, candidates)
       | Data None => Ok ([], candidates)
       end)
    (fun error =>
       (* Fallback: return candidates sorted by price *)
       let sorted := sort by_price candidates in
       Ok (fallback_result <$> take 10 sorted, sorted)).

Record AgentState : Type :=
  { lastRun : option string;
    candidates : list Listing;
    ranked : list RankedResult;
    context : option Context;
    decisionSpec : option DecisionSpec }.

Definition initial_state : AgentState :=
  {| lastRun := None; candidates := []; ranked := []; context := None;
     decisionSpec := None |}.

Record Payload : Type :=
  { payload_decision_spec : DecisionSpec; payload_context : option Context }.

(** What the handler returns: [{ ranked, message }] or
    [{ ranked, total_candidates }]. *)
Record FindDeals : Type :=
  { found_ranked : list RankedResult;
    message : option string;
    total_candidates : option nat }.

Definition handleFindDeals (world : World) (agentState : AgentState)
    (payload : Payload) : result FindDeals * AgentState :=
  let decision_spec := payload_decision_spec payload in
  let context := payload_context payload in
  let agentState :=
    {| lastRun := Some (now world); candidates := candidates agentState;
       ranked := ranked agentState; context := context;
       decisionSpec := Some decision_spec |} in
  (* Step 1: Gather candidates from multiple sources *)
  match gatherCandidates world (query decision_spec) with
  | Throw error => (Throw error, agentState)
  | Ok found =>
      let agentState :=
        {| lastRun := lastRun agentState; candidates := found;
           ranked := ranked agentState; context := ServiceWorker.context agentState;
           decisionSpec := decisionSpec agentState |} in
      if (length found =? 0)%nat then
        (Ok {| found_ranked := []; message := Some "No candidates found";
               total_candidates := None |},
         agentState)
      else
        (* Step 2: Rank candidates via server *)
        match rankCandidates world decision_spec context found with
        | Throw error => (Throw error, agentState)
        | Ok (results, found') =>
            let agentState :=
              {| lastRun := lastRun agentState; candidates := found';
                 ranked := results; context := ServiceWorker.context agentState;
                 decisionSpec := decisionSpec agentState |} in
            (Ok {| found_ranked := results; message := None;
                   total_candidates := Some (length found') |},
             agentState)
        end
  end.

End ServiceWorker.

(** * Statements and sample inputs *)

(** ** Failure of the ranking call *)




(** ** Outcomes of the two sources *)

(** What a source contributes to one gather: its listings, or a failure. *)
Inductive Outcome : Type :=
| Succeeds (found : list Schema.Listing)
| Fails.

Definition contribution (o : Outcome) : list Schema.Listing :=
  match o with
  | Succeeds found => found
  | Fails => []
  end.

(** The search server, for a query: it answers 2xx with listings, or the
    request is rejected, the status is not 2xx, or the body is not JSON, is
    [null], or carries no listings. *)
Inductive EbayOutcome (world : ServiceWorker.World) (query : string)
  : Outcome -> Prop :=
| ebay_listings r found :
    ServiceWorker.fetch_search_ebay world query = Ok r ->
    ServiceWorker.ok r = true ->
    ServiceWorker.json r = Ok (ServiceWorker.Data (Some found)) ->
    EbayOutcome world query (Succeeds found)
| ebay_network_error e :
    ServiceWorker.fetch_search_ebay world query = Throw e ->
    EbayOutcome world query Fails
| ebay_non_ok r :
    ServiceWorker.fetch_search_ebay world query = Ok r ->
    ServiceWorker.ok r = false ->
    EbayOutcome world query Fails
| ebay_malformed_body r e :
    ServiceWorker.fetch_search_ebay world query = Ok r ->
    ServiceWorker.ok r = true ->
    ServiceWorker.json r = Throw e ->
    EbayOutcome world query Fails
| ebay_null_body r :
    ServiceWorker.fetch_search_ebay world query = Ok r ->
    ServiceWorker.ok r = true ->
    ServiceWorker.json r = Ok ServiceWorker.Nullish ->
    EbayOutcome world query Fails
| ebay_no_listings r :
    ServiceWorker.fetch_search_ebay world query = Ok r ->
    ServiceWorker.ok r = true ->
    ServiceWorker.json r = Ok (ServiceWorker.Data None) ->
    EbayOutcome world query Fails.

Definition newegg_url (query : string) : string :=
  ServiceWorker.NEWEGG_SEARCH_URL +:+ ServiceWorker.encodeURIComponent query.

(** The Newegg tab, for a query: the tab opens, the content script answers
    with listings and the tab closes; or one of the three browser calls is
    rejected, or the content script answers nothing, an error (a scrape
    error), or no listings. *)
Inductive NeweggOutcome (world : ServiceWorker.World) (query : string)
  : Outcome -> Prop :=
| newegg_listings tab response found :
    ServiceWorker.tabs_create world (newegg_url query) = Ok tab ->
    ServiceWorker.tabs_sendMessage world tab = Ok (Some response) ->
    ServiceWorker.tabs_remove world tab = Ok tt ->
    Str.truthy (ServiceWorker.error response) = false ->
    ServiceWorker.listings response = Some found ->
    NeweggOutcome world query (Succeeds found)
| newegg_tab_error e :
    ServiceWorker.tabs_create world (newegg_url query) = Throw e ->
    NeweggOutcome world query Fails
| newegg_message_error tab e :
    ServiceWorker.tabs_create world (newegg_url query) = Ok tab ->
    ServiceWorker.tabs_sendMessage world tab = Throw e ->
    NeweggOutcome world query Fails
| newegg_close_error tab response e :
    ServiceWorker.tabs_create world (newegg_url query) = Ok tab ->
    ServiceWorker.tabs_sendMessage world tab = Ok response ->
    ServiceWorker.tabs_remove world tab = Throw e ->
    NeweggOutcome world query Fails
| newegg_no_response tab :
    ServiceWorker.tabs_create world (newegg_url query) = Ok tab ->
    ServiceWorker.tabs_sendMessage world tab = Ok None ->
    ServiceWorker.tabs_remove world tab = Ok tt ->
    NeweggOutcome world query Fails
| newegg_scrape_error tab response :
    ServiceWorker.tabs_create world (newegg_url query) = Ok tab ->
    ServiceWorker.tabs_sendMessage world tab = Ok (Some response) ->
    ServiceWorker.tabs_remove world tab = Ok tt ->
    Str.truthy (ServiceWorker.error response) = true ->
    NeweggOutcome world query Fails
| newegg_no_listings tab response :
    ServiceWorker.tabs_create world (newegg_url query) = Ok tab ->
    ServiceWorker.tabs_sendMessage world tab = Ok (Some response) ->
    ServiceWorker.tabs_remove world tab = Ok tt ->
    Str.truthy (ServiceWorker.error response) = false ->
    ServiceWorker.listings response = None ->
    NeweggOutcome world query Fails.

(** The query of a find-deals request: [payload.decision_spec.query]. *)
Definition query_of (payload : ServiceWorker.Payload) : string :=
  Schema.query (ServiceWorker.payload_decision_spec payload).

(** The answer of the find-deals handler when there is nothing to rank. *)
Definition no_candidates_found : ServiceWorker.FindDeals :=
  {| ServiceWorker.found_ranked := [];
     ServiceWorker.message := Some "No candidates found";
     ServiceWorker.total_candidates := None |}.

(** ** Scraped listings *)

(** A listing that is usable downstream: a title and a url, neither empty. *)
Definition has_title_and_url (l : Schema.Listing) : Prop :=
  exists t u : string,
    Schema.title l = Some t /\ t <> "" /\ Schema.url l = Some u /\ u <> "".

(** What the steps of [parseItem] after the title leave alone. *)
Definition same_frame (a b : Schema.Listing) : Prop :=
  Schema.title a = Schema.title b /\ Schema.url a = Schema.url b /\
  Schema.condition a = Schema.condition b /\ Schema.returns a = Schema.returns b.

(** The return policy the Newegg parser writes into every listing. *)
Definition hardcoded_returns : Schema.Returns :=
  {| Schema.available := Some true;
     Schema.window_days := Some (Num.Fin 30);
     Schema.unknown := true |}.

(** ** Key terms, in the words of the data model *)

(** The pieces of a string between the characters that do not satisfy [p]. *)
Fixpoint pieces (p : ascii -> bool) (s : string) : list string :=
  match s with
  | EmptyString => [EmptyString]
  | String c s' =>
      if p c then
        match pieces p s' with
        | piece :: rest => String c piece :: rest
        | [] => [String c EmptyString]
        end
      else EmptyString :: pieces p s'
  end.

(** The tokens of a title: its maximal runs of word characters, lower-cased,
    in the order they occur, those of more than two characters. *)
Definition title_tokens (title : string) : list string :=
  List.filter (fun w => (2 <? String.length w)%nat)
    (pieces Str.is_word (Str.toLowerCase title)).

(** A lower-case token: letters a-z, digits and the underscore. *)
Definition lowercase_token (w : string) : Prop :=
  Str.forall_chars
    (fun c => Str.is_lower c || Str.is_digit c || Ascii.eqb c "_") w = true.

(** ** The strategy cascade of the product page *)

(** A property an object provides: present, and neither [undefined] nor
    [null]. *)
Definition provides (object : gmap string jsval) (key : string) : bool :=
  match object !! key with
  | Some Value.JUndefined | Some Value.JNull | None => false
  | Some _ => true
  end.

(** The reading of the cascade in which metadata completes structured data:
    whenever JSON-LD yields a Product that does not provide a field and the
    meta tags provide it, the extracted Context has the meta tags' value. *)
Definition metadata_fills_unset_fields (clock : Clock.t) (document : Document.t)
  : Prop :=
  forall (jsonLdData : gmap string jsval) (key : string),
    GenericProductParser.extractJsonLd document = Some jsonLdData ->
    provides jsonLdData key = false ->
    provides (GenericProductParser.extractMetaTags document) key = true ->
    exists context,
      GenericProductParser.extract clock document = Ok context /\
      context !! key = GenericProductParser.extractMetaTags document !! key.

(** The document with other answers to [document.querySelector], the query
    that reads the meta tags and the DOM selectors. *)
Definition with_querySelector (document : Document.t)
    (querySelector : string -> option Node.t) : Document.t :=
  {| Document.hostname := Document.hostname document;
     Document.location_href := Document.location_href document;
     Document.querySelector := querySelector;
     Document.querySelectorAll := Document.querySelectorAll document;
     Document.ld_json := Document.ld_json document |}.

(** ** Samples *)



Definition sample_listing (name : string) (cost : num) : Schema.Listing :=
  Schema.set_price_value
    (Schema.set_url
       (Schema.set_title (Schema.createEmptyListing "2024-01-01T00:00:00.000Z")
          (Some name))
       (Some ("https://www.ebay.com/itm/" +:+ name)))
    cost.

Definition sample_candidates : list Schema.Listing :=
  [ sample_listing "a" (Num.Fin 600);
    sample_listing "b" (Num.Fin 550);
    sample_listing "c" (Num.Fin 580) ].

(** A world in which every request is rejected. *)
Definition offline : ServiceWorker.World :=
  {| ServiceWorker.fetch_search_ebay := fun _ => Throw (TypeError "Failed to fetch");
     ServiceWorker.fetch_rank := fun _ _ _ => Throw (TypeError "Failed to fetch");
     ServiceWorker.tabs_create := fun _ => Throw (Error "No current window");
     ServiceWorker.tabs_sendMessage := fun _ =>
       Throw (Error "Could not establish connection. Receiving end does not exist.");
     ServiceWorker.tabs_remove := fun _ => Throw (Error "No tab with id");
     ServiceWorker.now := "2024-01-01T00:00:00.000Z" |}.

(** A world in which the search server answers with the sample candidates
    and the browser refuses to open a tab. *)
Definition ebay_only : ServiceWorker.World :=
  {| ServiceWorker.fetch_search_ebay := fun _ =>
       Ok {| ServiceWorker.ok := true; ServiceWorker.status := 200;
             ServiceWorker.json := Ok (ServiceWorker.Data (Some sample_candidates)) |};
     ServiceWorker.fetch_rank := fun _ _ _ => Throw (TypeError "Failed to fetch");
     ServiceWorker.tabs_create := fun _ => Throw (Error "No current window");
     ServiceWorker.tabs_sendMessage := fun _ =>
       Throw (Error "Could not establish connection. Receiving end does not exist.");
     ServiceWorker.tabs_remove := fun _ => Throw (Error "No tab with id");
     ServiceWorker.now := "2024-01-01T00:00:00.000Z" |}.

Definition sample_payload : ServiceWorker.Payload :=
  {| ServiceWorker.payload_decision_spec := Schema.createDefaultDecisionSpec;
     ServiceWorker.payload_context := None |}.

Definition sample_clock : nat -> Clock.t :=
  fun index => {| Clock.now := 1700000000000 + N.of_nat index;
                  Clock.toISOString := "2023-11-14T22:13:20.000Z" |}.

(** An element with a text and nothing else. *)
Definition text_node (text : string) : Node.t :=
  {| Node.textContent := Some text;
     Node.getAttribute := fun _ => None;
     Node.href := None;
     Node.src := None;
     Node.alt := None;
     Node.title := Some "";
     Node.content := None |}.

(** A link. *)
Definition link_node (text url : string) : Node.t :=
  {| Node.textContent := Some text;
     Node.getAttribute := fun _ => None;
     Node.href := Some url;
     Node.src := None;
     Node.alt := None;
     Node.title := Some "";
     Node.content := None |}.

(** A Newegg result card: a title link and a price. *)
Definition newegg_card (title_link : Node.t) (dollars cents : string) : Element.t :=
  {| Element.textContent := Some "";
     Element.querySelector := fun selector =>
       if String.eqb selector ".item-title, a.item-title, a[title]"
       then Some title_link
       else if String.eqb selector ".price-current strong" then Some (text_node dollars)
       else if String.eqb selector ".price-current sup" then Some (text_node cents)
       else None |}.

(** A card with nothing in it. *)
Definition empty_card : Element.t :=
  {| Element.textContent := Some "";
     Element.querySelector := fun _ => None |}.

(** A page with four cards: a processor whose title names the maker twice,
    a card whose title element is not a link, an empty card, and a card
    carrying a condition label. *)
Definition newegg_page : Document.t :=
  {| Document.hostname := "www.newegg.com";
     Document.location_href := "https://www.newegg.com/p/pl?d=intel";
     Document.querySelector := fun _ => None;
     Document.querySelectorAll := fun selector =>
       if String.eqb selector ".item-cell, .item-container" then
         [ newegg_card
             (link_node "Intel Core i9 - Intel Xeon"
                "https://www.newegg.com/intel-core-i9/p/N82E16819118412?Item=1")
             "1,299" ".99";
           newegg_card (text_node "AMD Ryzen 9") "549" ".00";
           empty_card;
           {| Element.textContent := Some "Refurbished";
              Element.querySelector := fun selector =>
                if String.eqb selector ".item-title, a.item-title, a[title]"
                then Some (link_node "Open Box GPU" "https://www.newegg.com/p/1")
                else if String.eqb selector "[class*='condition']"
                then Some (text_node "Refurbished")
                else None |} ]
       else [];
     Document.ld_json := [] |}.

(** A [meta] element. *)
Definition meta_node (content : string) : Node.t :=
  {| Node.textContent := Some "";
     Node.getAttribute := fun _ => None;
     Node.href := None;
     Node.src := None;
     Node.alt := None;
     Node.title := Some "";
     Node.content := Some content |}.

(** The meta tags of the sample product page: a title, a brand, a price. *)
Definition sample_meta (selector : string) : option Node.t :=
  if String.eqb selector "meta[property='og:title'], meta[name='og:title']"
  then Some (meta_node "Widget Pro")
  else if String.eqb selector "meta[property='product:brand'], meta[name='product:brand']"
  then Some (meta_node "Acme")
  else if String.eqb selector
            "meta[property='product:price:amount'], meta[name='product:price:amount']"
  then Some (meta_node "19.99")
  else None.

(** A product page whose JSON-LD names the product and nothing else, and
    whose meta tags carry a brand and a price. *)
Definition product_page : Document.t :=
  {| Document.hostname := "shop.example.com";
     Document.location_href := "https://shop.example.com/widget";
     Document.querySelector := sample_meta;
     Document.querySelectorAll := fun _ => [];
     Document.ld_json :=
       [ Ok (Value.JObj [ ("@context", Value.JStr "https://schema.org");
                          ("@type", Value.JStr "Product");
                          ("name", Value.JStr "Widget") ]) ] |}.

(** The same page without structured data. *)
Definition meta_only_page : Document.t :=
  {| Document.hostname := "shop.example.com";
     Document.location_href := "https://shop.example.com/widget";
     Document.querySelector := sample_meta;
     Document.querySelectorAll := fun _ => [];
     Document.ld_json := [] |}.

(** A search page of another shop with one result card, labelled Pre-Owned. *)
Definition pre_owned_card : Element.t :=
  {| Element.textContent := Some "Lenovo ThinkPad T480 Pre-Owned $189.00";
     Element.querySelector := fun selector =>
       if String.eqb selector "a[href*='http'], a.item-title, a[class*='product']"
       then Some (link_node "Lenovo ThinkPad T480" "https://www.ebay.com/itm/1")
       else if String.eqb selector "[class*='price'], .s-item__price"
       then Some (text_node "$189.00")
       else if String.eqb selector "[class*='condition']"
       then Some (text_node "Pre-Owned")
       else None |}.

Definition ebay_page : Document.t :=
  {| Document.hostname := "www.ebay.com";
     Document.location_href := "https://www.ebay.com/sch/i.html?_nkw=thinkpad";
     Document.querySelector := fun _ => None;
     Document.querySelectorAll := fun selector =>
       if String.eqb selector ".srp-results .s-item" then [pre_owned_card] else [];
     Document.ld_json := [] |}.

(** * Properties *)

(** ** Weights *)

Section WeightFacts.

Import Num Schema.










End WeightFacts.




(** A zero sum leaves the weights as they are. *)
Lemma normalizeWeights_zero_sum (weights : gmap string num) :
  Num.eqb (Schema.weight_sum weights) Num.zero = true ->
  Schema.normalizeWeights weights = weights.
Proof. unfold Schema.normalizeWeights. intros ->. reflexivity. Qed.

(** The default weights are valid as they stand. *)
Example default_weights_valid :
  Schema.validateWeights (Schema.weights Schema.createDefaultDecisionSpec) = true.
Proof. vm_compute. reflexivity. Qed.

(** ** Fallback ranking *)

Section SortFacts.

Import Num Schema ServiceWorker.











(** Whatever the ranking call does, [rankCandidates] returns. *)
Lemma rankCandidates_returns (world : World) (spec : DecisionSpec)
    (context : option Context) (candidates : list Listing) :
  throws (rankCandidates world spec context candidates) = false.
Proof.
  unfold rankCandidates.
  destruct (fetch_rank world spec context candidates) as [r|e]; simpl; [|reflexivity].
  destruct (ok r); simpl; [|reflexivity].
  destruct (json r) as [[|[ranked|]]|e]; reflexivity.
Qed.

(** A body that parses and carries no [ranked] is not a failure for
    [rankCandidates]: the result is empty, the fallback is not taken. *)
Lemma rankCandidates_without_ranked (world : World) (spec : DecisionSpec)
    (context : option Context) (candidates : list Listing)
    (r : Response (list RankedResult)) :
  fetch_rank world spec context candidates = Ok r ->
  ok r = true -> json r = Ok (Data None) ->
  rankCandidates world spec context candidates = Ok ([], candidates).
Proof.
  intros Hr Hok Hjson. unfold rankCandidates. rewrite Hr. simpl.
  rewrite Hok. simpl. rewrite Hjson. reflexivity.
Qed.

End SortFacts.



(** The three sample candidates come back cheapest first. *)
Example rankCandidates_fallback_sample :
  (fun ranked : list ServiceWorker.RankedResult * list Schema.Listing =>
     Schema.title <$> (ServiceWorker.listing <$> ranked.1)) <$>
    ServiceWorker.rankCandidates offline Schema.createDefaultDecisionSpec None
      sample_candidates
  = Ok [Some "b"; Some "c"; Some "a"].
Proof. vm_compute. reflexivity. Qed.

(** ** Gathering candidates *)

Section GatherFacts.

Import Schema ServiceWorker.

Lemma fetchEbayCandidates_outcome (world : World) (query : string) (o : Outcome) :
  EbayOutcome world query o ->
  fetchEbayCandidates world query = Ok (contribution o).
Proof.
  unfold fetchEbayCandidates.
  destruct 1 as [r found Hr Hok Hjson|e Hr|r Hr Hok|r e Hr Hok Hjson
                |r Hr Hok Hjson|r Hr Hok Hjson];
    rewrite Hr; simpl; try reflexivity;
    rewrite Hok; simpl; try reflexivity;
    rewrite Hjson; reflexivity.
Qed.

Lemma fetchNeweggCandidates_outcome (world : World) (query : string) (o : Outcome) :
  NeweggOutcome world query o ->
  fetchNeweggCandidates world query = Ok (contribution o).
Proof.
  unfold fetchNeweggCandidates. fold (newegg_url query).
  destruct 1 as [tab response found Hc Hs Hr He Hl|e Hc|tab e Hc Hs
                |tab response e Hc Hs Hr|tab Hc Hs Hr|tab response Hc Hs Hr He
                |tab response Hc Hs Hr He Hl];
    rewrite Hc; simpl; try reflexivity;
    rewrite Hs; simpl; try reflexivity;
    rewrite Hr; simpl; try reflexivity;
    rewrite He; simpl; try reflexivity;
    rewrite Hl; reflexivity.
Qed.

(** Each source is caught on its own: neither function throws. *)
Lemma fetchEbayCandidates_returns (world : World) (query : string) :
  throws (fetchEbayCandidates world query) = false.
Proof.
  unfold fetchEbayCandidates.
  destruct (fetch_search_ebay world query) as [r|e]; simpl; [|reflexivity].
  destruct (ok r); simpl; [|reflexivity].
  destruct (json r) as [[|[found|]]|e]; reflexivity.
Qed.

Lemma fetchNeweggCandidates_returns (world : World) (query : string) :
  throws (fetchNeweggCandidates world query) = false.
Proof.
  unfold fetchNeweggCandidates.
  destruct (tabs_create world _) as [tab|e]; simpl; [|reflexivity].
  destruct (tabs_sendMessage world tab) as [response|e]; simpl; [|reflexivity].
  destruct (tabs_remove world tab) as [[]|e]; simpl; [|reflexivity].
  destruct response as [response|]; [|reflexivity].
  destruct (Str.truthy (error response)); reflexivity.
Qed.

Lemma gatherCandidates_returns (world : World) (query : string) :
  throws (gatherCandidates world query) = false.
Proof.
  unfold gatherCandidates.
  destruct (fetchEbayCandidates world query) as [ebay|e]; simpl;
    destruct (fetchNeweggCandidates world query) as [newegg|e']; reflexivity.
Qed.

(** The aggregate is the first source's contribution followed by the
    second's. *)
Lemma gatherCandidates_outcomes (world : World) (query : string) (ebay newegg : Outcome) :
  EbayOutcome world query ebay ->
  NeweggOutcome world query newegg ->
  gatherCandidates world query = Ok (contribution ebay ++ contribution newegg).
Proof.
  intros He Hn. unfold gatherCandidates.
  rewrite (fetchEbayCandidates_outcome _ _ _ He),
          (fetchNeweggCandidates_outcome _ _ _ Hn).
  reflexivity.
Qed.

End GatherFacts.

(** C2. If one source succeeds with its listings and the other fails (the
    request is rejected, the response is not ok, the scrape answers an
    error), [gatherCandidates] returns exactly the listings of the source
    that succeeded, in their order, and does not throw. *)
Theorem gatherCandidates_partial_failure (world : ServiceWorker.World)
    (query : string) (found : list Schema.Listing) :
  (EbayOutcome world query (Succeeds found) /\ NeweggOutcome world query Fails) \/
  (EbayOutcome world query Fails /\ NeweggOutcome world query (Succeeds found)) ->
  ServiceWorker.gatherCandidates world query = Ok found.
Proof.
  intros [[He Hn]|[He Hn]];
    rewrite (gatherCandidates_outcomes _ _ _ _ He Hn); simpl.
  - rewrite app_nil_r. reflexivity.
  - reflexivity.
Qed.

Lemma gatherCandidates_partial_failure_witness :
  ServiceWorker.gatherCandidates ebay_only "rtx 4070" = Ok sample_candidates.
Proof.
  apply (gatherCandidates_partial_failure ebay_only "rtx 4070" sample_candidates).
  left. split.
  - eapply ebay_listings; reflexivity.
  - eapply newegg_tab_error. reflexivity.
Defined.

(** C8. If every source fails, [gatherCandidates] returns the empty list and
    [handleFindDeals] returns the result "No candidates found" with an empty
    ranked list; neither throws. *)
Theorem handleFindDeals_no_candidates (world : ServiceWorker.World)
    (agentState : ServiceWorker.AgentState) (payload : ServiceWorker.Payload) :
  EbayOutcome world (query_of payload) Fails ->
  NeweggOutcome world (query_of payload) Fails ->
  ServiceWorker.gatherCandidates world (query_of payload) = Ok [] /\
  fst (ServiceWorker.handleFindDeals world agentState payload)
    = Ok no_candidates_found.
Proof.
  intros He Hn.
  pose proof (gatherCandidates_outcomes _ _ _ _ He Hn) as Hg. simpl in Hg.
  split; [exact Hg|].
  unfold ServiceWorker.handleFindDeals. fold (query_of payload).
  rewrite Hg. reflexivity.
Qed.

Lemma handleFindDeals_no_candidates_witness :
  ServiceWorker.gatherCandidates offline (query_of sample_payload) = Ok [] /\
  fst (ServiceWorker.handleFindDeals offline ServiceWorker.initial_state sample_payload)
    = Ok no_candidates_found.
Proof.
  apply (handleFindDeals_no_candidates offline ServiceWorker.initial_state sample_payload).
  - eapply ebay_network_error. reflexivity.
  - eapply newegg_tab_error. reflexivity.
Defined.

(** ** The Newegg parser, step by step *)

Section NeweggFacts.

Import Num Str Schema NeweggSearchParser.

Ltac frame step :=
  intros; unfold step, same_frame; repeat case_match; simpl; auto.

Lemma parse_price_frame el l : same_frame (parse_price el l) l.
Proof. revert el l. frame parse_price. Qed.

Lemma parse_shipping_frame el l : same_frame (parse_shipping el l) l.
Proof. revert el l. frame parse_shipping. Qed.

Lemma parse_rating_frame el l : same_frame (parse_rating el l) l.
Proof. revert el l. frame parse_rating. Qed.

Lemma parse_reviews_frame el l : same_frame (parse_reviews el l) l.
Proof. revert el l. frame parse_reviews. Qed.

Lemma parse_brand_frame el l : same_frame (parse_brand el l) l.
Proof. revert el l. frame parse_brand. Qed.

Lemma parse_image_frame el l : same_frame (parse_image el l) l.
Proof. revert el l. frame parse_image. Qed.

Lemma parse_promo_frame el l : same_frame (parse_promo el l) l.
Proof. revert el l. frame parse_promo. Qed.

Lemma parse_stock_frame el l : same_frame (parse_stock el l) l.
Proof. revert el l. frame parse_stock. Qed.

Lemma parse_key_terms_frame l : same_frame (parse_key_terms l) l.
Proof. revert l. frame parse_key_terms. Qed.

Lemma same_frame_trans a b c : same_frame a b -> same_frame b c -> same_frame a c.
Proof. unfold same_frame. intuition congruence. Qed.

(** The title step writes the title, the url and the id only. *)
Lemma parse_title_url_frame el l l' :
  parse_title_url el l = Ok l' ->
  condition l' = condition l /\ returns l' = returns l.
Proof.
  unfold parse_title_url. intros H.
  repeat case_match; simplify_eq; simpl; auto.
Qed.

(** The listing [parseItem] returns, in terms of the one the title step
    left. *)
Lemma parseItem_inv clock el index l :
  parseItem clock el index = Ok l ->
  exists l1 l2,
    parse_title_url el (initial_listing clock index) = Ok l1 /\
    same_frame l2 l1 /\
    key_terms (specs l2) =
      match title l2 with
      | Some t => if nonempty t then extract_key_terms t else []
      | None => []
      end /\
    l = set_returns_window_days (set_returns_available l2 (Some true)) (Some (Fin 30)).
Proof.
  unfold parseItem. intros H.
  destruct (parse_title_url el (initial_listing clock index)) as [l1|e] eqn:H1;
    simpl in H; [|discriminate].
  injection H as <-.
  set (l9 := parse_stock el (parse_promo el (parse_image el (parse_brand el
               (parse_reviews el (parse_rating el (parse_shipping el
                 (parse_price el l1)))))))).
  assert (Hframe : same_frame l9 l1).
  { unfold l9.
    repeat (eapply same_frame_trans;
            [first [apply parse_stock_frame | apply parse_promo_frame
                   | apply parse_image_frame | apply parse_brand_frame
                   | apply parse_reviews_frame | apply parse_rating_frame
                   | apply parse_shipping_frame]|]).
    apply parse_price_frame. }
  exists l1, (parse_key_terms l9). split; [reflexivity|].
  split; [eapply same_frame_trans; [apply parse_key_terms_frame | exact Hframe]|].
  assert (Hkt0 : key_terms (specs l9) = []).
  { unfold l9, parse_stock, parse_promo, parse_image, parse_brand, parse_reviews,
      parse_rating, parse_shipping, parse_price.
    assert (H0 : key_terms (specs l1) = []).
    { revert H1. unfold parse_title_url. intros H1.
      repeat case_match; simplify_eq; reflexivity. }
    repeat case_match; simpl; exact H0. }
  split; [|reflexivity].
  destruct (parse_key_terms_frame l9) as (Htitle & _). rewrite Htitle.
  unfold parse_key_terms.
  destruct (title l9) as [t|]; [|exact Hkt0].
  destruct (nonempty t); [reflexivity | exact Hkt0].
Qed.

Lemma parseItem_returns clock el index l :
  parseItem clock el index = Ok l -> returns l = hardcoded_returns.
Proof.
  intros H. apply parseItem_inv in H as (l1 & l2 & H1 & (_ & _ & _ & Hr) & _ & ->).
  apply parse_title_url_frame in H1 as [_ Hr1].
  unfold set_returns_window_days, set_returns_available, hardcoded_returns. simpl.
  rewrite Hr, Hr1. reflexivity.
Qed.

Lemma parseItem_condition clock el index l :
  parseItem clock el index = Ok l -> condition l = CNew.
Proof.
  intros H. apply parseItem_inv in H as (l1 & l2 & H1 & (_ & _ & Hc & _) & _ & ->).
  apply parse_title_url_frame in H1 as [Hc1 _].
  simpl. rewrite Hc, Hc1. reflexivity.
Qed.

Lemma parseItem_key_terms clock el index l :
  parseItem clock el index = Ok l ->
  key_terms (specs l) =
    match title l with
    | Some t => if nonempty t then extract_key_terms t else []
    | None => []
    end.
Proof.
  intros H. apply parseItem_inv in H as (l1 & l2 & _ & _ & Hk & ->).
  simpl. exact Hk.
Qed.

(** One turn of the loop of [scrape] returns, with the listings it had and
    at most one more, parsed from the card and usable. *)
Lemma scrape_item_inv clock listings item index :
  exists listings',
    scrape_item clock listings item index = Ok listings' /\
    (listings' = listings \/
     exists l, parseItem (clock index) item index = Ok l /\ usable l = true /\
               listings' = listings ++ [l]).
Proof.
  unfold scrape_item.
  destruct (parseItem (clock index) item index) as [l|e] eqn:Hp; simpl.
  - destruct (usable l) eqn:Hu; simpl; eauto 7.
  - eauto.
Qed.

(** A card whose parse throws is skipped. *)
Lemma scrape_item_throw clock listings item index e :
  parseItem (clock index) item index = Throw e ->
  scrape_item clock listings item index = Ok listings.
Proof. unfold scrape_item. intros ->. reflexivity. Qed.

(** A card that parses to an empty title or url is skipped. *)
Lemma scrape_item_unusable clock listings item index l :
  parseItem (clock index) item index = Ok l -> usable l = false ->
  scrape_item clock listings item index = Ok listings.
Proof. unfold scrape_item. intros -> H. simpl. rewrite H. reflexivity. Qed.

(** The loop returns, and what holds of every usable parsed card holds of
    every listing. *)
Lemma scrape_items_inv (P : Listing -> Prop) clock items index listings :
  (forall i el l, parseItem (clock i) el i = Ok l -> usable l = true -> P l) ->
  Forall P listings ->
  exists listings',
    scrape_items clock items index listings = Ok listings' /\ Forall P listings'.
Proof.
  intros HP. revert index listings.
  induction items as [|item items IH]; intros index listings Hl; simpl.
  - eauto.
  - destruct (scrape_item_inv clock listings item index)
      as (listings' & -> & [->|(l & Hp & Hu & ->)]); simpl.
    + apply IH, Hl.
    + apply IH. apply Forall_app. split; [exact Hl|].
      constructor; [|constructor]. eapply HP; eassumption.
Qed.

Lemma scrape_inv (P : Listing -> Prop) clock document :
  (forall i el l, parseItem (clock i) el i = Ok l -> usable l = true -> P l) ->
  exists listings,
    scrape clock document = Ok listings /\ length listings <= 20 /\
    Forall P listings.
Proof.
  intros HP. unfold scrape.
  match goal with
  | |- context [scrape_items clock ?items 0 []] =>
      destruct (scrape_items_inv P clock items 0 [] HP (List.Forall_nil P))
        as (listings & -> & Hall)
  end.
  simpl. exists (take 20 listings). split; [reflexivity|]. split.
  - rewrite length_take. lia.
  - apply Forall_take, Hall.
Qed.

Lemma usable_has_title_and_url l : usable l = true -> has_title_and_url l.
Proof.
  unfold usable, has_title_and_url, truthy. intros H.
  apply andb_true_iff in H as [Ht Hu].
  destruct (title l) as [t|]; [|discriminate].
  destruct (url l) as [u|]; [|discriminate].
  exists t, u. repeat split; intros ->; discriminate.
Qed.

End NeweggFacts.

(** ** Key terms *)

Section KeyTermFacts.

Import Str Schema NeweggSearchParser.

Lemma word_not_space c : is_word c = true -> is_space c = false.
Proof. destruct c as [[] [] [] [] [] [] [] []]; vm_compute; congruence. Qed.

(** Splitting the blanked string at white space gives the pieces between
    the characters that are not word characters, up to empty pieces. *)
Lemma split_blank_pieces (f : string -> bool) (s : string) :
  f EmptyString = false ->
  (exists piece rest rest',
     split_ws_from false (Regex.blank_punctuation s) = piece :: rest /\
     pieces is_word s = piece :: rest' /\
     List.filter f rest = List.filter f rest') /\
  List.filter f (split_ws_from true (Regex.blank_punctuation s))
  = List.filter f (pieces is_word s).
Proof.
  intros Hf. induction s as [|c s [(piece & rest & rest' & IHs & IHp & IHf) IHt]].
  - split; [|reflexivity]. exists EmptyString, [], []. auto.
  - unfold Regex.blank_punctuation in *. cbn [map_chars split_ws_from pieces].
    destruct (is_word c) eqn:Hw.
    + simpl orb. cbv iota. rewrite (word_not_space c Hw), IHs, IHp. split.
      * exists (String c piece), rest, rest'. auto.
      * cbn [List.filter]. rewrite IHf. reflexivity.
    + assert (Hb : is_space (if false || is_space c then c else " "%char) = true).
      { simpl orb. destruct (is_space c) eqn:Hs; [exact Hs | reflexivity]. }
      rewrite Hb. split.
      * exists EmptyString. eexists. eexists. split; [reflexivity|].
        split; [reflexivity|]. exact IHt.
      * cbn [List.filter]. rewrite Hf. exact IHt.
Qed.

Lemma split_ws_pieces (f : string -> bool) (s : string) :
  f EmptyString = false ->
  List.filter f (split_ws (Regex.blank_punctuation s))
  = List.filter f (pieces is_word s).
Proof.
  intros Hf.
  destruct (split_blank_pieces f s Hf) as [(piece & rest & rest' & Hs & Hp & Hr) _].
  unfold split_ws. rewrite Hs, Hp. cbn [List.filter]. rewrite Hr. reflexivity.
Qed.

(** The key terms of the parser are the first ten tokens of the title. *)
Lemma extract_key_terms_tokens (t : string) :
  extract_key_terms t = take 10 (title_tokens t).
Proof.
  unfold extract_key_terms, title_tokens.
  rewrite split_ws_pieces by reflexivity. reflexivity.
Qed.

Lemma lower_word_char c :
  is_word (to_lower_char c) = true ->
  is_lower (to_lower_char c) || is_digit (to_lower_char c)
    || Ascii.eqb (to_lower_char c) "_" = true.
Proof. destruct c as [[] [] [] [] [] [] [] []]; vm_compute; congruence. Qed.

Lemma pieces_lowercase (s : string) :
  Forall lowercase_token (pieces is_word (toLowerCase s)).
Proof.
  unfold lowercase_token, toLowerCase.
  induction s as [|c s IH]; cbn [map_chars pieces].
  - repeat constructor.
  - destruct (is_word (to_lower_char c)) eqn:Hw.
    + destruct (pieces is_word (map_chars to_lower_char s)) as [|piece rest].
      * constructor; [|constructor]. simpl. rewrite (lower_word_char c Hw). reflexivity.
      * apply Forall_cons in IH as [Hp Hr]. constructor; [|exact Hr].
        cbn [forall_chars]. rewrite (lower_word_char c Hw), Hp. reflexivity.
    + constructor; [reflexivity | exact IH].
Qed.

Lemma title_tokens_lowercase (t : string) : Forall lowercase_token (title_tokens t).
Proof.
  unfold title_tokens. pose proof (pieces_lowercase t) as H.
  rewrite Forall_forall in H |- *. intros w Hw. apply H.
  apply list_elem_of_In in Hw. apply filter_In in Hw as [Hw _].
  apply list_elem_of_In, Hw.
Qed.

End KeyTermFacts.

(** ** The scrapers *)

Section GenericFacts.

Import Schema GenericSearchParser.

Lemma map_indexed_length {A B : Type} (f : A -> nat -> B) (index : nat) (l : list A) :
  length (map_indexed f index l) = length l.
Proof.
  revert index. induction l as [|x l IH]; intros index; simpl; [reflexivity|].
  rewrite IH. reflexivity.
Qed.

Lemma filter_length_bound {A : Type} (f : A -> bool) (l : list A) :
  length (List.filter f l) <= length l.
Proof.
  induction l as [|x l IH]; simpl; [lia|]. destruct (f x); simpl; lia.
Qed.

Lemma filter_Forall {A : Type} (f : A -> bool) (l : list A) :
  Forall (fun x => f x = true) (List.filter f l).
Proof.
  apply Forall_forall. intros x Hx.
  apply list_elem_of_In, filter_In in Hx as [_ Hx]. exact Hx.
Qed.

End GenericFacts.

(** C4. The Newegg scrape and the generic [scrapeResults] each return at most
    20 listings, every one with a non-empty title and a non-empty url; the
    Newegg scrape returns whatever the cards are (an element without title or
    url, or one whose parse throws, is dropped), and [scrapeResults] has
    nothing in it that throws. *)
Theorem scrape_postcondition (clock : nat -> Clock.t) (document : Document.t) :
  (exists listings,
     NeweggSearchParser.scrape clock document = Ok listings /\
     length listings <= 20 /\
     Forall has_title_and_url listings) /\
  length (GenericSearchParser.scrapeResults clock document) <= 20 /\
  Forall has_title_and_url (GenericSearchParser.scrapeResults clock document).
Proof.
  split; [|split].
  - apply scrape_inv. intros i el l _ Hu. apply usable_has_title_and_url, Hu.
  - unfold GenericSearchParser.scrapeResults.
    etransitivity; [apply filter_length_bound|].
    rewrite map_indexed_length, length_take. lia.
  - unfold GenericSearchParser.scrapeResults.
    eapply Forall_impl; [apply filter_Forall|].
    intros l Hu. apply usable_has_title_and_url, Hu.
Qed.

(** Of the four cards of the sample page two are dropped: the one whose
    title element has no [href] makes [parseItem] throw, the empty one has
    neither title nor url. *)
Example scrape_drops_bad_cards :
  throws (NeweggSearchParser.parseItem (sample_clock 1)
            (newegg_card (text_node "AMD Ryzen 9") "549" ".00") 1) = true /\
  (Schema.title <$> NeweggSearchParser.parseItem (sample_clock 2) empty_card 2)
    = Ok (Some "") /\
  (fmap (M := list) Schema.title <$> NeweggSearchParser.scrape sample_clock newegg_page)
    = Ok [Some "Intel Core i9 - Intel Xeon"; Some "Open Box GPU"].
Proof. vm_compute. auto. Qed.

(** C9. Every listing of the Newegg search parser has [returns.available]
    true and [returns.window_days] 30, whatever the page shows, and
    [returns.unknown] is still true. *)
Theorem newegg_returns_hardcoded (clock : nat -> Clock.t) (document : Document.t) :
  exists listings,
    NeweggSearchParser.scrape clock document = Ok listings /\
    Forall (fun l => Schema.returns l = hardcoded_returns) listings.
Proof.
  destruct (scrape_inv (fun l => Schema.returns l = hardcoded_returns) clock document)
    as (listings & Hs & _ & Hall).
  - intros i el l Hp _. eapply parseItem_returns, Hp.
  - exists listings. auto.
Qed.

(** C10. Every listing of the Newegg search parser has the condition [new],
    whatever condition text its card carries. *)
Theorem newegg_condition_new (clock : nat -> Clock.t) (document : Document.t) :
  exists listings,
    NeweggSearchParser.scrape clock document = Ok listings /\
    Forall (fun l => Schema.condition l = Schema.CNew) listings.
Proof.
  destruct (scrape_inv (fun l => Schema.condition l = Schema.CNew) clock document)
    as (listings & Hs & _ & Hall).
  - intros i el l Hp _. eapply parseItem_condition, Hp.
  - exists listings. auto.
Qed.

(** The last card of the sample page is labelled Refurbished; its listing
    says [new]. *)
Example newegg_condition_ignores_label :
  (fmap (M := list) Schema.condition <$> NeweggSearchParser.scrape sample_clock newegg_page)
    = Ok [Schema.CNew; Schema.CNew].
Proof. vm_compute. reflexivity. Qed.

(** C7, as the parser has it.  The key terms of a Newegg listing are the
    first ten tokens of its title: the maximal runs of word characters of the
    lower-cased title that are longer than two characters, in the order they
    occur, a repeated token repeated.  Each is made of a-z, 0-9 and the
    underscore. *)
Theorem newegg_key_terms (clock : nat -> Clock.t) (document : Document.t) :
  exists listings,
    NeweggSearchParser.scrape clock document = Ok listings /\
    Forall (fun l =>
              exists t,
                Schema.title l = Some t /\
                Schema.key_terms (Schema.specs l) = take 10 (title_tokens t) /\
                Forall lowercase_token (Schema.key_terms (Schema.specs l)) /\
                length (Schema.key_terms (Schema.specs l)) <= 10)
           listings.
Proof.
  match goal with
  | |- exists listings, _ /\ Forall ?P listings =>
      destruct (scrape_inv P clock document) as (listings & Hs & _ & Hall)
  end.
  - intros i el l Hp Hu.
    apply parseItem_key_terms in Hp.
    apply usable_has_title_and_url in Hu as (t & u & Ht & Hne & _).
    exists t. rewrite Ht in Hp.
    destruct t as [|c t']; [congruence|]. simpl in Hp.
    rewrite extract_key_terms_tokens in Hp. rewrite Hp.
    split; [exact Ht|]. split; [reflexivity|]. split.
    + apply Forall_take, title_tokens_lowercase.
    + rewrite length_take. lia.
  - exists listings. auto.
Qed.

(** C7, as stated, fails: the first card of the sample page is titled
    "Intel Core i9 - Intel Xeon", and its key terms hold "intel" twice. *)
Lemma newegg_key_terms_repeat :
  exists l rest,
    NeweggSearchParser.scrape sample_clock newegg_page = Ok (l :: rest) /\
    Schema.key_terms (Schema.specs l) = ["intel"; "core"; "intel"; "xeon"] /\
    ~ NoDup (Schema.key_terms (Schema.specs l)).
Proof.
  eexists. eexists. split; [vm_compute; reflexivity|].
  split; [reflexivity|].
  simpl. intros H.
  apply NoDup_cons in H as [H _]. apply H.
  apply list_elem_of_In. simpl. auto.
Qed.

(** ** Condition classification *)

Section ConditionFacts.

Import Str Schema Value GenericProductParser.

Lemma prefix_cons_inv (a b : ascii) (s1 s2 : string) :
  String.prefix (String a s1) (String b s2) = true ->
  a = b /\ String.prefix s1 s2 = true.
Proof.
  cbn [String.prefix]. destruct (ascii_dec a b) as [->|]; [auto | discriminate].
Qed.

Lemma prefix_inv (pat s : string) :
  String.prefix pat s = true -> exists rest, s = pat +:+ rest.
Proof.
  revert s. induction pat as [|a pat IH]; intros s H.
  - exists s. reflexivity.
  - destruct s as [|b s]; [discriminate H|].
    apply prefix_cons_inv in H as [-> H].
    destruct (IH s H) as [rest ->]. exists rest. reflexivity.
Qed.

(** With [renewed] comes [new]: the letters 3 to 5 of the one are the
    other. *)
Lemma includes_renewed_new (s : string) :
  includes s "renewed" = true -> includes s "new" = true.
Proof.
  induction s as [|c s IH]; [discriminate|].
  intros H. cbn [includes] in H. apply orb_true_iff in H as [H|H].
  - apply prefix_inv in H as [rest ->]. reflexivity.
  - cbn [includes]. apply orb_true_iff. right. apply IH, H.
Qed.

(** The test for [renewed] in [parseCondition] never decides: a text that
    contains it has been classified [new] by the test before. *)
Lemma parseCondition_renewed_branch_dead (text : string) :
  includes (toLowerCase text) "renewed" = true ->
  parseCondition (JStr text) = Ok CNew.
Proof.
  intros H. unfold parseCondition.
  assert (Hne : nonempty text = true).
  { destruct text; [discriminate H | reflexivity]. }
  simpl Value.truthy. rewrite Hne. simpl negb. cbv iota.
  rewrite (includes_renewed_new _ H). reflexivity.
Qed.

End ConditionFacts.

(** C5.  The classification of condition text at the inputs where it
    departs from the rule.  The condition branch of [parseListingElement]
    tests neither "pre-owned" nor "renewed": a result card labelled
    "Pre-Owned" is scraped with the condition [unknown], where
    [parseCondition] answers [used] for the same text.  And [parseCondition]
    maps "Renewed" to [new]: the text contains "new", and that test comes
    first. *)
Theorem condition_classification_departs :
  Schema.condition <$> GenericSearchParser.scrapeResults sample_clock ebay_page
    = [Schema.CUnknown] /\
  GenericProductParser.parseCondition (Value.JStr "Pre-Owned") = Ok Schema.CUsed /\
  GenericProductParser.parseCondition (Value.JStr "Renewed") = Ok Schema.CNew.
Proof. vm_compute. auto. Qed.

(** Where the text holds none of the earlier words, the rule is followed. *)
Example parseCondition_samples :
  GenericProductParser.parseCondition (Value.JStr "Brand New") = Ok Schema.CNew /\
  GenericProductParser.parseCondition (Value.JStr "Seller refurbished") = Ok Schema.CRefurb /\
  GenericProductParser.parseCondition (Value.JStr "Used") = Ok Schema.CUsed /\
  GenericProductParser.parseCondition (Value.JStr "For parts") = Ok Schema.CUnknown /\
  GenericProductParser.parseCondition Value.JNull = Ok Schema.CUnknown /\
  GenericProductParser.parseCondition Value.JUndefined = Ok Schema.CUnknown.
Proof. vm_compute. auto 10. Qed.

(** ** The strategy cascade *)

Section CascadeFacts.

Import Value GenericProductParser.

(** With a JSON-LD Product, [extract] returns at once: the initial context
    overlaid with the product's fields, typed [product]. *)
Lemma extract_json_ld clock document jsonLdData :
  extractJsonLd document = Some jsonLdData ->
  extract clock document
  = Ok (<["type" := JStr "product"]> (jsonLdData ∪ initial_context clock document)).
Proof. unfold extract, assign. intros ->. reflexivity. Qed.

(** Without one, and with nothing found in the DOM, the Context is the
    initial context overlaid with the meta tags, when they have a title. *)
Lemma extract_metadata clock document domData :
  extractJsonLd document = None ->
  holds (extractMetaTags document) "title" = true ->
  extractFromDom document = Ok domData ->
  holds domData "title" || holds domData "price" = false ->
  let context := extractMetaTags document ∪ initial_context clock document in
  extract clock document
  = Ok (<["keywords" := JStr (generateKeywords context)]> context).
Proof.
  unfold extract, assign. intros -> -> -> Hdom. simpl. rewrite Hdom. reflexivity.
Qed.

End CascadeFacts.

(** C6, as the parser has it.  When JSON-LD yields a Product, the extracted
    Context is the initial context overlaid with the fields of the Product
    and typed [product]; the meta tags are not read: whatever
    [document.querySelector] answers, the Context is the same. *)
Theorem extract_structured_data_only (clock : Clock.t) (document : Document.t)
    (jsonLdData : gmap string jsval) :
  GenericProductParser.extractJsonLd document = Some jsonLdData ->
  GenericProductParser.extract clock document
  = Ok (<["type" := Value.JStr "product"]>
         (jsonLdData ∪ GenericProductParser.initial_context clock document)) /\
  forall querySelector,
    GenericProductParser.extract clock (with_querySelector document querySelector)
    = GenericProductParser.extract clock document.
Proof.
  intros H. split; [apply extract_json_ld, H|].
  intros querySelector.
  rewrite (extract_json_ld clock document jsonLdData H).
  rewrite (extract_json_ld clock (with_querySelector document querySelector) jsonLdData H).
  reflexivity.
Qed.

Lemma extract_structured_data_only_witness :
  GenericProductParser.extract (sample_clock 0) product_page
  = Ok (<["type" := Value.JStr "product"]>
         (<["description" := Value.JUndefined]>
            (<["image" := Value.JUndefined]>
               (<["brand" := Value.JUndefined]>
                  (<["title" := Value.JStr "Widget"]> ∅)))
          ∪ GenericProductParser.initial_context (sample_clock 0) product_page)) /\
  forall querySelector,
    GenericProductParser.extract (sample_clock 0)
      (with_querySelector product_page querySelector)
    = GenericProductParser.extract (sample_clock 0) product_page.
Proof.
  apply (extract_structured_data_only (sample_clock 0) product_page).
  vm_compute. reflexivity.
Defined.

(** C6, as stated, fails on the sample page: its JSON-LD Product has no
    brand, its meta tags name the brand Acme, and the extracted Context has
    [brand] undefined. *)
Lemma metadata_does_not_fill :
  ~ metadata_fills_unset_fields (sample_clock 0) product_page.
Proof.
  intros H.
  destruct (H (<["description" := Value.JUndefined]>
                 (<["image" := Value.JUndefined]>
                    (<["brand" := Value.JUndefined]>
                       (<["title" := Value.JStr "Widget"]> ∅)))) "brand")
    as (context & Hc & Hb).
  - vm_compute. reflexivity.
  - vm_compute. reflexivity.
  - vm_compute. reflexivity.
  - assert (Hx : GenericProductParser.extract (sample_clock 0) product_page
                 ≫= (fun c => Ok (c !! "brand")) = Ok (Some Value.JUndefined)).
    { vm_compute. reflexivity. }
    rewrite Hc in Hx. simpl in Hx. injection Hx as Hx.
    rewrite Hb in Hx. vm_compute in Hx. discriminate Hx.
Qed.

(** On the same page without its JSON-LD the meta tags are used. *)
Example extract_meta_only_page :
  GenericProductParser.extract (sample_clock 0) meta_only_page
    ≫= (fun c => Ok (c !! "brand", c !! "title", c !! "price", c !! "type"))
  = Ok (Some (Value.JStr "Acme"), Some (Value.JStr "Widget Pro"),
        Some (Value.JNum (Num.Fin 19.99)), Some (Value.JStr "unknown")).
Proof. vm_compute. reflexivity. Qed.
